(** * pdf2json: the element-to-JSON conversion core of [conversion.py]

    A shallow embedding of the pure part of [conversion.py]: the section
    heading detector, the markdown table parser, the category classifier and
    the per-element aggregation loop of [process_pdf], together with the
    strategy fallback that surrounds the extraction engine.

    Python [str] values are [string]s whose characters are code points below
    256 (Latin-1); within that range the character classes below are exactly
    the ones Python's [str.strip] and the [re] module use. *)

From Stdlib Require Import ZArith DecimalString Ascii String.
From stdpp Require Import gmap strings list fin_maps sorting.

Open Scope string_scope.
Open Scope list_scope.
Open Scope stdpp_scope.

(** ** Characters *)

Module Chars.

Definition nl : ascii := "010"%char.

(** [\d] on [str] patterns: the decimal digits (the only characters of
    category Nd below 256). *)
Definition is_digit (c : ascii) : bool :=
  let n := nat_of_ascii c in ((48 <=? n) && (n <=? 57))%nat.

(** [str.isspace] and [\s] on [str] patterns: tab, line feed, vertical
    tab, form feed, carriage return, the four separators 0x1c-0x1f,
    space, NEL (0x85) and the no-break space (0xa0). *)
Definition is_space (c : ascii) : bool :=
  let n := nat_of_ascii c in
  (((9 <=? n) && (n <=? 13)) || ((28 <=? n) && (n <=? 32))
   || (n =? 133) || (n =? 160))%nat.

Definition is_dot (c : ascii) : bool := Ascii.eqb c "."%char.

(** [.] without [re.DOTALL]: anything but a line feed. *)
Definition not_newline (c : ascii) : bool := negb (Ascii.eqb c nl).

End Chars.
Export Chars.

(** ** [str.strip()] *)

Fixpoint lstrip (s : list ascii) : list ascii :=
  match s with
  | c :: s' => if is_space c then lstrip s' else s
  | [] => []
  end.

Definition rstrip (s : list ascii) : list ascii :=
  reverse (lstrip (reverse s)).

Definition strip (s : list ascii) : list ascii := rstrip (lstrip s).

(** ** A backtracking matcher for the fragment of [re] the source uses

    The pattern language is the one of
    [section_pattern = r"^\d+(\.\d+)*\s+(.+)$"]: anchors, character
    classes, concatenation, greedy repetition and capturing groups.  The
    matcher returns the successes in the order a backtracking engine tries
    them (greedy alternatives first), so the head of the list is the match
    that [re.match] reports. *)

Module Re.

Inductive regex : Type :=
| Bol                              (* ^ *)
| Eol                              (* $ *)
| Class (p : ascii → bool)         (* \d  \s  \.  . *)
| Cat (r1 r2 : regex)
| Star (r : regex)                 (* r*, greedy *)
| Group (i : nat) (r : regex).     (* ( r ), numbered i *)

(** r+ *)
Definition Plus (r : regex) : regex := Cat r (Star r).

(** A position in the subject: how many characters were consumed, what
    is left, and the text last captured by each group. *)
Record mstate : Type := MState {
  pos : nat;
  rest : list ascii;
  caps : gmap nat (list ascii)
}.

Definition start (s : list ascii) : mstate :=
  {| pos := 0; rest := s; caps := ∅ |}.

Definition step_class (p : ascii → bool) (st : mstate) : list mstate :=
  match rest st with
  | c :: s' =>
      if p c then [ {| pos := S (pos st); rest := s'; caps := caps st |} ]
      else []
  | [] => []
  end.

(** [$] without [re.MULTILINE]: the end of the subject, or just before a
    line feed that ends it. *)
Definition at_eol (st : mstate) : bool :=
  match rest st with
  | [] => true
  | [c] => Ascii.eqb c nl
  | _ => false
  end.

Definition capture (i : nat) (st st' : mstate) : mstate :=
  {| pos := pos st'; rest := rest st';
     caps := <[ i := take (pos st' - pos st) (rest st) ]> (caps st') |}.

(** The iterations of a greedy star: one more round of the body first,
    stopping here last. *)
Fixpoint star_iter (body : mstate → list mstate) (k : nat) (st : mstate)
  : list mstate :=
  match k with
  | O => [st]
  | S k' => (body st ≫= star_iter body k') ++ [st]
  end.

(** [run r fuel st]: every way [r] matches at [st], best first.  [fuel]
    bounds the number of iterations of one starred group; a starred body
    that consumes a character never needs more than the length of the
    subject. *)
Fixpoint run (r : regex) (fuel : nat) (st : mstate) : list mstate :=
  match r with
  | Bol => if (pos st =? 0)%nat then [st] else []
  | Eol => if at_eol st then [st] else []
  | Class p => step_class p st
  | Cat r1 r2 => run r1 fuel st ≫= run r2 fuel
  | Star r1 => star_iter (run r1 fuel) fuel st
  | Group i r1 => capture i st <$> run r1 fuel st
  end.

(** [re.match(pattern, s)] *)
Definition re_match (r : regex) (s : list ascii) : option mstate :=
  head (run r (S (length s)) (start s)).

(** [m.group(i)], absent when the group took no part in the match. *)
Definition group (m : mstate) (i : nat) : option string :=
  string_of_list_ascii <$> caps m !! i.

(** The texts a pattern matches, declaratively: [lang r p u v] says that
    [r] matches the text [u] found after [p] characters of the subject and
    followed by [v]. *)
Inductive lang : regex → nat → list ascii → list ascii → Prop :=
| L_Bol v : lang Bol 0 [] v
| L_Eol_end p : lang Eol p [] []
| L_Eol_nl p : lang Eol p [] [nl]
| L_Class f p c v : f c = true → lang (Class f) p [c] v
| L_Cat r1 r2 p u1 u2 v :
    lang r1 p u1 (u2 ++ v) → lang r2 (p + length u1) u2 v →
    lang (Cat r1 r2) p (u1 ++ u2) v
| L_Star_stop r p v : lang (Star r) p [] v
| L_Star_more r p u1 u2 v :
    lang r p u1 (u2 ++ v) → lang (Star r) (p + length u1) u2 v →
    lang (Star r) p (u1 ++ u2) v
| L_Group i r p u v : lang r p u v → lang (Group i r) p u v.

(** Every group of [r] numbered [i] only matches texts that satisfy
    [G i]. *)
Fixpoint groups_ok (G : nat → list ascii → Prop) (r : regex) : Prop :=
  match r with
  | Cat r1 r2 => groups_ok G r1 ∧ groups_ok G r2
  | Star r1 => groups_ok G r1
  | Group i r1 => groups_ok G r1 ∧ ∀ p u v, lang r1 p u v → G i u
  | _ => True
  end.

Definition caps_ok (G : nat → list ascii → Prop) (c : gmap nat (list ascii)) : Prop :=
  ∀ i u, c !! i = Some u → G i u.

(** What a success of the matcher says about the text it consumed. *)
Definition consumed (r : regex) (st st' : mstate) : Prop :=
  ∃ u, rest st = u ++ rest st' ∧ pos st' = pos st + length u
       ∧ lang r (pos st) u (rest st').

End Re.
Import Re.

(** ** [detect_section_subsection] *)

(** [r"^\d+(\.\d+)*\s+(.+)$"] *)
Definition section_pattern : regex :=
  Cat Bol
 (Cat (Plus (Class is_digit))
 (Cat (Star (Group 1 (Cat (Class is_dot) (Plus (Class is_digit)))))
 (Cat (Plus (Class is_space))
 (Cat (Group 2 (Plus (Class not_newline)))
      Eol)))).

Definition detect_section_subsection (text : string)
  : option string * option string :=
  if String.eqb text "" then (None, None)
  else
    match re_match section_pattern (strip (list_ascii_of_string text)) with
    | Some m => (group m 1, group m 2)
    | None => (None, None)
    end.

(** The headings the pattern is written for: a run of digits, any number
    of groups made of a dot and a run of digits, white space, and a
    non-empty rest without line feed. *)
Definition digits (d : list ascii) : Prop :=
  d ≠ [] ∧ Forall (λ c, is_digit c = true) d.

Definition dot_group (g : list ascii) : Prop :=
  ∃ d, g = "."%char :: d ∧ digits d.

Definition blanks (w : list ascii) : Prop :=
  w ≠ [] ∧ Forall (λ c, is_space c = true) w.

Definition one_line (r : list ascii) : Prop :=
  r ≠ [] ∧ Forall (λ c, not_newline c = true) r.

Definition dotted_heading (s : list ascii) : Prop :=
  ∃ d gs w r,
    s = d ++ concat gs ++ w ++ r ∧
    digits d ∧ Forall dot_group gs ∧ blanks w ∧ one_line r.

(** The next character, if any, is outside the class [f]. *)
Definition stops (f : ascii → bool) (t : list ascii) : Prop :=
  match t with
  | c :: _ => f c = false
  | [] => True
  end.

(** What the two groups of [section_pattern] can capture. *)
Definition heading_caps (i : nat) (u : list ascii) : Prop :=
  match i with
  | 1 => dot_group u
  | 2 => one_line u
  | _ => True
  end.

(** The captures after the groups [gs] were matched one after the other:
    each overwrites group 1. *)
Definition caps_after (gs : list (list ascii)) (c : gmap nat (list ascii))
  : gmap nat (list ascii) :=
  fold_left (λ c g, <[ 1 := g ]> c) gs c.

(** ** Python values used below *)

(** [str(n)] for an [int]. *)
Definition str_int (n : Z) : string := NilZero.string_of_int (Z.to_int n).

(** [s.strip()] on [string]. *)
Definition str_strip (s : string) : string :=
  string_of_list_ascii (strip (list_ascii_of_string s)).

(** Truthiness of an [Optional[str]]: [None] and [""] are false. *)
Definition truthy (o : option string) : bool :=
  match o with
  | Some s => negb (String.eqb s "")
  | None => false
  end.

(** [a or b] where [a : Optional[str]] and [b : str]. *)
Definition or_str (a : option string) (b : string) : string :=
  match a with
  | Some s => if String.eqb s "" then b else s
  | None => b
  end.

(** ** Data frames

    What [parse_markdown_table] sees of pandas: a frame is its column
    labels and its rows; a cell read from text is missing, an integer or a
    string (float and boolean columns are not modelled). *)

Module Frame.

Inductive cell : Type :=
| NaN
| IntCell (z : Z)
| StrCell (s : string).

Record DataFrame (A : Type) : Type := mkFrame {
  columns : list string;
  values : list (list A)
}.
Arguments mkFrame {A} _ _.
Arguments columns {A} _.
Arguments values {A} _.

(** [pd.notnull(x)] *)
Definition notnull (x : cell) : bool :=
  match x with NaN => false | _ => true end.

(** [str(x)] *)
Definition str_cell (x : cell) : string :=
  match x with
  | NaN => "nan"
  | IntCell z => str_int z
  | StrCell s => s
  end.

(** [df.applymap(f)], of the pandas versions that have it. *)
Definition applymap {A B : Type} (f : A → B) (df : DataFrame A) : DataFrame B :=
  mkFrame (columns df) ((λ row : list A, f <$> row) <$> values df).

(** Selection of the positions where a boolean mask is true. *)
Fixpoint select {A : Type} (mask : list bool) (l : list A) : list A :=
  match mask, l with
  | b :: mask', x :: l' => if b then x :: select mask' l' else select mask' l'
  | _, _ => []
  end.

(** [df.loc[:, mask]] *)
Definition loc_columns {A : Type} (mask : list bool) (df : DataFrame A) : DataFrame A :=
  mkFrame (select mask (columns df)) (select mask <$> values df).

(** [df.columns.str.contains("^Unnamed")] *)
Definition columns_contains_Unnamed {A : Type} (df : DataFrame A) : list bool :=
  String.prefix "Unnamed" <$> columns df.

(** [df.values.tolist()] *)
Definition tolist {A : Type} (df : DataFrame A) : list (list A) := values df.

(** The outcome of a reader call: a frame, or an exception. *)
Inductive outcome : Type :=
| Parsed (df : DataFrame cell)
| Raised (msg : string).

End Frame.
Import Frame.

(** ** A model of the reader call of [parse_markdown_table]

    [pandas_read_csv text] stands for
    [pd.read_csv(StringIO(text), sep="|", skiprows=1, engine="python")].
    As in pandas, the rows are the lines split at the pipes, the first row
    is skipped, blank rows are dropped, the next row names the columns (an
    empty name becomes [Unnamed: i], a repeated name gets a numeric
    suffix), no column to name is an [EmptyDataError], short rows are padded
    with missing values, the default missing-value markers read as missing,
    and a column made of integer literals only is read as integers.

    The model is meant for texts without carriage return and without quote
    character, whose data rows have no more fields than the header (pandas
    reads the extra leading fields of a longer first row as an index and
    returns a grid where the model raises), and whose other columns are
    text.  Numbers are read as pandas reads them only in a column of plain
    integer literals: pandas also reads integers padded with blanks or
    signed with a plus, and gives a column of floating point or boolean
    literals, or of integers mixed with missing values, another type (so
    that [2] beside a missing value is rendered [2.0]); on such columns the
    model keeps the text of the field and differs from pandas.  The
    statements below use the model on closed inputs free of these cases and
    on texts of at most one line, where only the skipped first row
    matters. *)

Module Csv.

(** Fields of one line: [split sep s]. *)
Fixpoint split_on (sep : ascii) (s : list ascii) : list (list ascii) :=
  match s with
  | [] => [[]]
  | c :: s' =>
      if Ascii.eqb c sep then [] :: split_on sep s'
      else match split_on sep s' with
           | f :: fs => (c :: f) :: fs
           | [] => [[c]]
           end
  end.

(** The lines a text stream yields: a final line feed ends the last line,
    it does not start an empty one. *)
Definition lines (s : list ascii) : list (list ascii) :=
  match s with
  | [] => []
  | _ => let ls := split_on nl s in
         match last ls with
         | Some [] => take (length ls - 1) ls
         | _ => ls
         end
  end.

(** The row [csv.reader] makes of a line; an empty line is an empty row. *)
Definition csv_row (line : list ascii) : list string :=
  match line with
  | [] => []
  | _ => string_of_list_ascii <$> split_on "|"%char line
  end.

(** Rows that [skip_blank_lines] drops. *)
Definition is_blank_row (row : list string) : bool :=
  match row with
  | [] => true
  | [f] => String.eqb (str_strip f) ""
  | _ => false
  end.

Definition count_occ_str (x : string) (l : list string) : nat :=
  length (filter (λ y, y = x) l).

(** Column labels: [Unnamed: i] for an empty header field, and [.k]
    appended to the k-th repetition of a label. *)
Fixpoint label_columns (i : nat) (seen fields : list string) : list string :=
  match fields with
  | [] => []
  | f :: fs =>
      let name := if String.eqb f "" then "Unnamed: " +:+ str_int (Z.of_nat i) else f in
      let k := count_occ_str name seen in
      let label := match k with
                   | O => name
                   | _ => name +:+ "." +:+ str_int (Z.of_nat k)
                   end in
      label :: label_columns (S i) (name :: seen) fs
  end.

(** The default missing-value markers. *)
Definition na_values : list string :=
  [""; "#N/A"; "#N/A N/A"; "#NA"; "-1.#IND"; "-1.#QNAN"; "-NaN"; "-nan";
   "1.#IND"; "1.#QNAN"; "<NA>"; "N/A"; "NA"; "NULL"; "NaN"; "None"; "n/a";
   "nan"; "null"].

Definition is_na (f : string) : bool := bool_decide (f ∈ na_values).

Definition digit_value (c : ascii) : Z := Z.of_nat (nat_of_ascii c) - 48.

Definition parse_nat (ds : list ascii) : Z :=
  fold_left (λ acc c, 10 * acc + digit_value c)%Z ds 0%Z.

Definition is_int_literal (f : string) : bool :=
  match list_ascii_of_string f with
  | [] => false
  | c :: ds =>
      if Ascii.eqb c "-"%char
      then negb (bool_decide (ds = [])) && forallb is_digit ds
      else forallb is_digit (c :: ds)
  end.

Definition parse_int (f : string) : Z :=
  match list_ascii_of_string f with
  | c :: ds => if Ascii.eqb c "-"%char then (- parse_nat ds)%Z else parse_nat (c :: ds)
  | [] => 0%Z
  end.

(** Is column [j] made of integer literals only? *)
Definition int_column (data : list (list string)) (j : nat) : bool :=
  forallb (λ row, match row !! j with
                  | Some f => is_int_literal f
                  | None => false
                  end) data.

Definition read_cell (as_int : bool) (field : option string) : cell :=
  match field with
  | None => NaN
  | Some f =>
      if is_na f then NaN
      else if as_int then IntCell (parse_int f)
      else StrCell f
  end.

Definition read_row (data : list (list string)) (ncols : nat) (row : list string)
  : list cell :=
  (λ j, read_cell (int_column data j) (row !! j)) <$> seq 0 ncols.

Definition pandas_read_csv (text : string) : outcome :=
  let rows := csv_row <$> lines (list_ascii_of_string text) in
  match filter (λ r, is_blank_row r = false) (drop 1 rows) with
  | [] => Raised "EmptyDataError: No columns to parse from file"
  | header :: data =>
      let ncols := length header in
      if forallb (λ r, length r <=? ncols)%nat data
      then Parsed (mkFrame (label_columns 0 [] header)
                           (read_row data ncols <$> data))
      else Raised "ParserError: Expected fewer fields"
  end.

End Csv.
Import Csv.

(** ** Document elements and content items *)

Module El.

(** [el.metadata.coordinates]; [points] is carried by its [str()]
    rendering, the only way the program observes it. *)
Record CoordinatesMetadata : Type := { points : string }.

(** [coordinates] is absent when the metadata has no such attribute, the
    case in which [hasattr] is false.  A metadata object whose attribute
    exists with the value [None] is not represented: on it
    [el.metadata.coordinates.points] raises [AttributeError] and no item is
    built. *)
Record ElementMetadata : Type := {
  page_number : Z;
  coordinates : option CoordinatesMetadata
}.

Record t : Type := {
  category : string;
  text : option string;
  metadata : ElementMetadata
}.

End El.

Inductive kind : Type := paragraph | table | chart.

Global Instance kind_eq_dec : EqDecision kind.
Proof. solve_decision. Defined.

Module Item.

(** The dictionary [content_item]. *)
Record t : Type := mk {
  type : kind;
  section : option string;
  sub_section : option string;
  description : option string;
  text : option string;
  table_data : option (list (list string))
}.

Definition set_description (d : option string) (it : t) : t :=
  mk (type it) (section it) (sub_section it) d (text it) (table_data it).

Definition set_text (x : option string) (it : t) : t :=
  mk (type it) (section it) (sub_section it) (description it) x (table_data it).

Definition set_table_data (g : option (list (list string))) (it : t) : t :=
  mk (type it) (section it) (sub_section it) (description it) (text it) g.

End Item.

(** One entry of the output list [result["pages"]]. *)
Record Page : Type := mkPage {
  page_number : Z;
  content : list Item.t
}.

(** ** [map_element_type] *)

Definition map_element_type (category : string) : kind :=
  if String.eqb category "Table" then table
  else if bool_decide (category ∈ ["Image"; "FigureCaption"]) then chart
  else paragraph.

(** ** Exceptions and the calls made to the extraction engine *)

Inductive exn : Type :=
| FileNotFoundError (msg : string)
| Exception (msg : string).

Inductive result (A : Type) : Type :=
| Ok (a : A)
| Raise (e : exn).
Arguments Ok {A} _.
Arguments Raise {A} _.

(** The keyword arguments of one [partition_pdf] call;
    [infer_table_structure] is absent when the call does not pass it. *)
Record call : Type := mkCall {
  filename : string;
  strategy : string;
  languages : list string;
  infer_table_structure : option bool
}.

(** Computations that call the engine: they thread the log of the calls
    made so far and end in a value or in an exception. *)
Definition M (A : Type) : Type := list call → result A * list call.

Definition ret {A : Type} (a : A) : M A := λ log, (Ok a, log).

Definition raise {A : Type} (e : exn) : M A := λ log, (Raise e, log).

Definition bind {A B : Type} (m : M A) (k : A → M B) : M B :=
  λ log, match m log with
         | (Ok a, log') => k a log'
         | (Raise e, log') => (Raise e, log')
         end.

(** [try: m  except Exception as e: h e] *)
Definition try_except {A : Type} (m : M A) (h : exn → M A) : M A :=
  λ log, match m log with
         | (Ok a, log') => (Ok a, log')
         | (Raise e, log') => h e log'
         end.

Definition DEFAULT_STRATEGY : string := "hi_res".
Definition FALLBACK_STRATEGY : string := "fast".

(** The state of the loop of [process_pdf]. *)
Record agg_state : Type := mkState {
  pages : gmap Z (list Item.t);
  current_section : option string;
  current_subsection : option string
}.

Definition init_state : agg_state := mkState ∅ None None.

(** Order of [sorted(pages.items())]: tuples compare by their first
    component, and the keys of a dictionary are distinct. *)
Definition page_le (x y : Z * list Item.t) : Prop := (x.1 ≤ y.1)%Z.

Global Instance page_le_dec : RelDecision page_le.
Proof. intros x y. unfold page_le. apply _. Defined.

Section Conversion.

(** The collaborators of the program: the table reader
    [pd.read_csv(StringIO(·), sep="|", skiprows=1, engine="python")],
    [str(Path(·))] and [Path.is_file], the page count of [fitz] and the
    extraction engine [partition_pdf], whose answer may depend on the calls
    made before. *)
Variable read_csv : string → outcome.
Variable path_str : string → string.
Variable is_file : string → bool.
Variable fitz_page_count : string → result Z.
Variable engine : list call → call → result (list El.t).

(** *** [parse_markdown_table] *)

Definition parse_markdown_table (md_text : string)
  : option (list (list string)) :=
  match read_csv md_text with
  | Parsed df =>
      let df := applymap (λ x, if notnull x then str_strip (str_cell x) else "") df in
      let df := loc_columns (negb <$> columns_contains_Unnamed df) df in
      Some (tolist df)
  | Raised _ => None
  end.

(** *** The body of the loop of [process_pdf] *)

(** [el.text if el.text else ""] *)
Definition text_of (el : El.t) : string :=
  match El.text el with
  | Some s => s
  | None => ""
  end.

(** The update of the carried headings: only a [Title] writes them. *)
Definition update_headings (st : agg_state) (el : El.t)
  : option string * option string :=
  let '(section, subsection) := detect_section_subsection (text_of el) in
  if String.eqb (El.category el) "Title"
  then (Some (or_str section (text_of el)), subsection)
  else (current_section st, current_subsection st).

(** The dictionary literal that starts [content_item]. *)
Definition new_item (el_type : kind) (sec sub : option string) (text : string)
  : Item.t :=
  Item.mk el_type sec sub None
          (if decide (el_type = table) then None else Some text)
          None.

(** The [if]/[elif] chain that fills the fields that depend on the type. *)
Definition fill_item (el : El.t) (it : Item.t) : Item.t :=
  let page_num := El.page_number (El.metadata el) in
  let text := text_of el in
  match Item.type it with
  | table =>
      Item.set_description (Some ("Table on page " +:+ str_int page_num))
        (Item.set_table_data (parse_markdown_table text) it)
  | chart =>
      Item.set_text None
        (Item.set_description
           (Some ("Chart/Image on page " +:+ str_int page_num
                  +:+ " (category: " +:+ El.category el +:+ ")")) it)
  | paragraph =>
      if truthy (detect_section_subsection text).1
      then Item.set_description (Some "Section header") it
      else it
  end.

(** [if hasattr(el.metadata, "coordinates"): ...]; the [None] branch is the
    metadata without the attribute, which the step leaves alone. *)
Definition add_bbox (el : El.t) (it : Item.t) : Item.t :=
  match El.coordinates (El.metadata el) with
  | Some c =>
      Item.set_description
        (Some (or_str (Item.description it) "" +:+ " (bbox=" +:+ El.points c +:+ ")"))
        it
  | None => it
  end.

Definition content_item (st : agg_state) (el : El.t) : Item.t :=
  let '(sec, sub) := update_headings st el in
  add_bbox el
    (fill_item el
       (new_item (map_element_type (El.category el)) sec sub (text_of el))).

(** [pages[page_num].append(content_item)] on a [defaultdict(list)]. *)
Definition append_item (page_num : Z) (it : Item.t) (pages : gmap Z (list Item.t))
  : gmap Z (list Item.t) :=
  <[ page_num := default [] (pages !! page_num) ++ [it] ]> pages.

Definition process_element (st : agg_state) (el : El.t) : agg_state :=
  let '(sec, sub) := update_headings st el in
  mkState (append_item (El.page_number (El.metadata el)) (content_item st el) (pages st))
          sec sub.

(** The items in the order the loop appends them, each with the page it
    is appended to. *)
Fixpoint emitted (st : agg_state) (elements : list El.t) : list (Z * Item.t) :=
  match elements with
  | [] => []
  | el :: els =>
      (El.page_number (El.metadata el), content_item st el)
      :: emitted (process_element st el) els
  end.

(** The [for] loop over [elements]. *)
Definition aggregate (elements : list El.t) : agg_state :=
  fold_left process_element elements init_state.

(** [{"pages": [... for page_num, content in sorted(pages.items())]}] *)
Definition format_result (pages : gmap Z (list Item.t)) : list Page :=
  (λ kv, mkPage kv.1 kv.2) <$> merge_sort page_le (map_to_list pages).

(** *** The extraction with its fallback *)

Definition partition_pdf (c : call) : M (list El.t) :=
  λ log, (engine log c, log ++ [c]).

Definition extract_elements (pdf_path strategy : string) : M (list El.t) :=
  try_except
    (partition_pdf (mkCall (path_str pdf_path) strategy ["eng"] (Some true)))
    (λ e,
       if negb (String.eqb strategy FALLBACK_STRATEGY)
       then partition_pdf (mkCall (path_str pdf_path) FALLBACK_STRATEGY ["eng"] None)
       else raise e).

(** *** [process_pdf] *)

Definition process_pdf (pdf_path strategy : string) : M (list Page) :=
  if negb (is_file pdf_path)
  then raise (FileNotFoundError ("PDF file not found: " +:+ pdf_path))
  else
    match fitz_page_count pdf_path with
    | Raise e => raise e
    | Ok _ =>
        bind (extract_elements pdf_path strategy) (λ elements,
          ret (format_result (pages (aggregate elements))))
    end.

End Conversion.

(** ** Sample inputs *)

Module Samples.

Definition two_col_table : string :=
"A|B
--|--
1|2".

Definition padded_table : string :=
"A | B
--|--
 x | y z ".

Definition three_lines : string :=
"a
b
c".

Definition element (category : string) (text : option string) (page : Z)
    (bbox : option string) : El.t :=
  El.Build_t category text
    (El.Build_ElementMetadata page (El.Build_CoordinatesMetadata <$> bbox)).

Definition title_1_2 : El.t := element "Title" (Some "1.2 Overview") 1 None.

Definition title_padded : El.t := element "Title" (Some " Intro") 1 None.

Definition narrative : El.t :=
  element "NarrativeText" (Some "Hello world.") 1 (Some "((72.0, 90.5), (72.0, 102.5))").

Definition image : El.t := element "Image" None 2 None.

Definition empty_table : El.t := element "Table" (Some "") 3 None.

(** An engine on which only the fallback strategy works. *)
Definition fast_only (log : list call) (c : call) : result (list El.t) :=
  if String.eqb (strategy c) FALLBACK_STRATEGY then Ok [title_1_2; narrative]
  else Raise (Exception "layout model unavailable").

End Samples.

(** * Properties *)

(** ** Characters and [strip] *)

Lemma space_not_digit c : is_space c = true → is_digit c = false.
Proof.
  destruct c as [[] [] [] [] [] [] [] []]; vm_compute; congruence.
Qed.

Lemma space_not_dot c : is_space c = true → is_dot c = false.
Proof.
  destruct c as [[] [] [] [] [] [] [] []]; vm_compute; congruence.
Qed.

Lemma dot_not_digit c : is_dot c = true → is_digit c = false.
Proof.
  destruct c as [[] [] [] [] [] [] [] []]; vm_compute; congruence.
Qed.

Lemma nl_is_space : is_space nl = true.
Proof. reflexivity. Qed.

Lemma lstrip_head s c : head (lstrip s) = Some c → is_space c = false.
Proof.
  induction s as [|a s IH]; simpl; [done|].
  destruct (is_space a) eqn:Ha; [done|].
  simpl. congruence.
Qed.

Lemma strip_last s c : last (strip s) = Some c → is_space c = false.
Proof.
  unfold strip, rstrip. rewrite last_reverse. apply lstrip_head.
Qed.

Lemma lstrip_suffix s : ∃ w, s = w ++ lstrip s ∧ Forall (λ c, is_space c = true) w.
Proof.
  induction s as [|a s (w & Hw & Hs)]; simpl.
  - by exists [].
  - destruct (is_space a) eqn:Ha.
    + exists (a :: w). split; [simpl; congruence | by constructor].
    + by exists [].
Qed.

Lemma lstrip_clean s :
  match s with c :: _ => is_space c = false | [] => True end → lstrip s = s.
Proof. destruct s as [|c s]; simpl; [done|]. by intros ->. Qed.

(** A text that neither starts nor ends with white space is its own
    [strip]. *)
Lemma strip_clean s c1 c2 :
  head s = Some c1 → last s = Some c2 →
  is_space c1 = false → is_space c2 = false → strip s = s.
Proof.
  intros H1 H2 Hc1 Hc2. unfold strip, rstrip.
  rewrite (lstrip_clean s).
  - rewrite lstrip_clean; [apply reverse_involutive|].
    rewrite <- head_reverse in H2.
    destruct (reverse s); simplify_eq/=; done.
  - destruct s; simplify_eq/=; done.
Qed.

Lemma lstrip_idem s : lstrip (lstrip s) = lstrip s.
Proof.
  apply lstrip_clean. destruct (lstrip s) as [|c t] eqn:E; [done|].
  apply (lstrip_head s). by rewrite E.
Qed.

Lemma rstrip_idem s : rstrip (rstrip s) = rstrip s.
Proof. unfold rstrip. by rewrite reverse_involutive, lstrip_idem. Qed.

Lemma lstrip_snoc s c : is_space c = false → lstrip (s ++ [c]) = lstrip s ++ [c].
Proof.
  intros Hc. induction s as [|a s IH]; simpl; [by rewrite Hc|].
  by destruct (is_space a).
Qed.

Lemma rstrip_cons c s : is_space c = false → rstrip (c :: s) = c :: rstrip s.
Proof.
  intros Hc. unfold rstrip.
  by rewrite reverse_cons, lstrip_snoc, reverse_snoc.
Qed.

(** [strip] does nothing to a stripped text. *)
Lemma strip_idem s : strip (strip s) = strip s.
Proof.
  unfold strip. destruct (lstrip s) as [|c t] eqn:E; [done|].
  assert (is_space c = false) as Hc by (apply (lstrip_head s); by rewrite E).
  rewrite (rstrip_cons c t Hc). simpl. rewrite Hc.
  by rewrite (rstrip_cons c _ Hc), rstrip_idem.
Qed.

Lemma str_strip_idem s : str_strip (str_strip s) = str_strip s.
Proof.
  unfold str_strip. by rewrite list_ascii_of_string_of_list_ascii, strip_idem.
Qed.

(** ** The matcher against the declarative language *)

Section MatcherSound.

Lemma star_iter_sound r body k st st' :
  (∀ a b, b ∈ body a → consumed r a b) →
  st' ∈ star_iter body k st → consumed (Star r) st st'.
Proof.
  intros Hbody. revert st.
  assert (Hstop : ∀ st, consumed (Star r) st st).
  { intros st. exists []. split_and!; [done | simpl; lia | constructor]. }
  induction k as [|k IH]; intros st; simpl.
  - intros ->%list_elem_of_singleton. apply Hstop.
  - rewrite elem_of_app, list_elem_of_bind, list_elem_of_singleton.
    intros [(y & Hy' & Hy) | ->]; [|apply Hstop].
    destruct (Hbody _ _ Hy) as (u1 & E1 & P1 & L1).
    destruct (IH _ Hy') as (u2 & E2 & P2 & L2).
    exists (u1 ++ u2). split_and!.
    + rewrite E1, E2. by rewrite (assoc_L (++)).
    + rewrite P2, P1, length_app. lia.
    + apply L_Star_more; [by rewrite <- E2 | by rewrite <- P1].
Qed.

Lemma run_sound r fuel st st' :
  st' ∈ run r fuel st → consumed r st st'.
Proof.
  revert st st'. induction r as [| |f|r1 IH1 r2 IH2|r1 IH1|i r1 IH1];
    intros st st'; simpl.
  - destruct (pos st =? 0)%nat eqn:E; [|by intros ?%elem_of_nil].
    apply Nat.eqb_eq in E. intros ->%list_elem_of_singleton.
    exists []. split_and!; [done | simpl; lia |]. rewrite E. constructor.
  - unfold at_eol. intros H.
    assert (st' = st ∧ (rest st = [] ∨ rest st = [nl])) as [-> Hr].
    { destruct (rest st) as [|c [|c' t]] eqn:E; simpl in H.
      - apply list_elem_of_singleton in H. auto.
      - destruct (Ascii.eqb c nl) eqn:Ec; [|by apply elem_of_nil in H].
        apply Ascii.eqb_eq in Ec. subst c.
        apply list_elem_of_singleton in H. auto.
      - by apply elem_of_nil in H. }
    exists []. split_and!; [done | simpl; lia |].
    destruct Hr as [-> | ->]; constructor.
  - unfold step_class. destruct (rest st) as [|c t] eqn:E; [by intros ?%elem_of_nil|].
    destruct (f c) eqn:Ec; [|by intros ?%elem_of_nil].
    intros ->%list_elem_of_singleton. simpl.
    exists [c]. split_and!; [done | simpl; lia | by constructor].
  - rewrite list_elem_of_bind. intros (y & Hy' & Hy).
    destruct (IH1 _ _ Hy) as (u1 & E1 & P1 & L1).
    destruct (IH2 _ _ Hy') as (u2 & E2 & P2 & L2).
    exists (u1 ++ u2). split_and!.
    + rewrite E1, E2. by rewrite (assoc_L (++)).
    + rewrite P2, P1, length_app. lia.
    + apply L_Cat; [by rewrite <- E2 | by rewrite <- P1].
  - apply star_iter_sound. intros a b. apply IH1.
  - rewrite list_elem_of_fmap. intros (y & -> & Hy).
    destruct (IH1 _ _ Hy) as (u & E & P & L).
    exists u. simpl. split_and!; [done | done | by constructor].
Qed.

(** Captured texts are texts their group matches. *)
Lemma star_iter_caps G body k st st' :
  (∀ a b, b ∈ body a → caps_ok G (caps a) → caps_ok G (caps b)) →
  st' ∈ star_iter body k st → caps_ok G (caps st) → caps_ok G (caps st').
Proof.
  intros Hbody. revert st. induction k as [|k IH]; intros st; simpl.
  - by intros ->%list_elem_of_singleton.
  - rewrite elem_of_app, list_elem_of_bind, list_elem_of_singleton.
    intros [(y & Hy' & Hy) | ->]; [|done]. eauto.
Qed.

Lemma run_caps G r fuel st st' :
  groups_ok G r → st' ∈ run r fuel st →
  caps_ok G (caps st) → caps_ok G (caps st').
Proof.
  revert st st'. induction r as [| |f|r1 IH1 r2 IH2|r1 IH1|i r1 IH1];
    intros st st' HG; simpl.
  - destruct (pos st =? 0)%nat; [|by intros ?%elem_of_nil].
    by intros ->%list_elem_of_singleton.
  - destruct (at_eol st); [|by intros ?%elem_of_nil].
    by intros ->%list_elem_of_singleton.
  - unfold step_class. destruct (rest st) as [|c t]; [by intros ?%elem_of_nil|].
    destruct (f c); [|by intros ?%elem_of_nil].
    by intros ->%list_elem_of_singleton.
  - destruct HG as [HG1 HG2].
    rewrite list_elem_of_bind. intros (y & Hy' & Hy). eauto.
  - apply star_iter_caps. intros a b. by apply IH1.
  - destruct HG as [HG1 HGi].
    rewrite list_elem_of_fmap. intros (y & -> & Hy) Hc.
    destruct (run_sound _ _ _ _ Hy) as (u & E & P & L).
    intros j v. simpl. rewrite lookup_insert. case_decide as Hj.
    + intros [= <-]. subst j. rewrite P, E.
      replace (pos st + length u - pos st) with (length u) by lia.
      rewrite take_app_length. eauto.
    + apply (IH1 _ _ HG1 Hy Hc).
Qed.

End MatcherSound.

(** ** What [section_pattern] matches *)

Lemma lang_class_inv f p u v :
  lang (Class f) p u v → ∃ c, u = [c] ∧ f c = true.
Proof. inversion 1; subst. eauto. Qed.

Lemma lang_star_class f p u v :
  lang (Star (Class f)) p u v → Forall (λ c, f c = true) u.
Proof.
  remember (Star (Class f)) as r eqn:Er. intros H.
  induction H; try discriminate; [constructor|].
  injection Er as ->.
  apply lang_class_inv in H as (c & -> & Hc).
  constructor; [done | by apply IHlang2].
Qed.

Lemma lang_plus_class f p u v :
  lang (Plus (Class f)) p u v → u ≠ [] ∧ Forall (λ c, f c = true) u.
Proof.
  unfold Plus. inversion 1 as [| | | |r1 r2 p' u1 u2 v' H1 H2| | |]; subst.
  apply lang_class_inv in H1 as (c & -> & Hc).
  apply lang_star_class in H2.
  split; [done | by constructor].
Qed.

Lemma lang_dot_group p u v :
  lang (Cat (Class is_dot) (Plus (Class is_digit))) p u v → dot_group u.
Proof.
  inversion 1 as [| | | |r1 r2 p' u1 u2 v' H1 H2| | |]; subst.
  apply lang_class_inv in H1 as (c & -> & Hc).
  apply Ascii.eqb_eq in Hc as ->.
  apply lang_plus_class in H2. by exists u2.
Qed.

Lemma lang_star_groups i p u v :
  lang (Star (Group i (Cat (Class is_dot) (Plus (Class is_digit))))) p u v →
  ∃ gs, u = concat gs ∧ Forall dot_group gs.
Proof.
  remember (Star (Group i (Cat (Class is_dot) (Plus (Class is_digit))))) as r eqn:Er.
  intros H. induction H; try discriminate.
  - by exists [].
  - injection Er as ->.
    destruct (IHlang2 eq_refl) as (gs & -> & Hgs).
    inversion H; subst.
    exists (u1 :: gs). split; [done|].
    constructor; [by eapply lang_dot_group | done].
Qed.

Lemma lang_section_pattern p u v :
  lang section_pattern p u v → dotted_heading u ∧ (v = [] ∨ v = [nl]).
Proof.
  unfold section_pattern. intros H.
  inversion H as [| | | |? ? ? u0 t0 ? H0 T0| | |]; subst; clear H.
  inversion H0; subst; clear H0.
  inversion T0 as [| | | |? ? ? d t1 ? Hd T1| | |]; subst; clear T0.
  inversion T1 as [| | | |? ? ? g t2 ? Hg T2| | |]; subst; clear T1.
  inversion T2 as [| | | |? ? ? w t3 ? Hw T3| | |]; subst; clear T2.
  inversion T3 as [| | | |? ? ? r e ? Hr He| | |]; subst; clear T3.
  apply lang_plus_class in Hd, Hw.
  apply lang_star_groups in Hg as (gs & -> & Hgs).
  inversion Hr; subst. match goal with X : lang (Plus _) _ _ _ |- _ =>
    apply lang_plus_class in X as Hline end.
  assert (e = [] ∧ (v = [] ∨ v = [nl])) as [-> Hv].
  { inversion He; subst; auto. }
  split; [|done].
  exists d, gs, w, r. rewrite app_nil_r. simpl. by split_and!.
Qed.

(** A match of [section_pattern] reads a dotted heading, and what follows
    it is nothing or one final line feed. *)
Lemma re_match_section_sound s m :
  re_match section_pattern s = Some m →
  ∃ u, s = u ++ rest m ∧ dotted_heading u ∧ (rest m = [] ∨ rest m = [nl]).
Proof.
  unfold re_match. intros H%head_Some_elem_of.
  apply run_sound in H as (u & E & _ & L). simpl in E, L.
  apply lang_section_pattern in L as [Hu Hv]. by exists u.
Qed.

Lemma re_match_strip_sound s m :
  re_match section_pattern (strip s) = Some m → dotted_heading (strip s).
Proof.
  intros H. destruct (re_match_section_sound _ _ H) as (u & E & Hu & [Hv|Hv]).
  - rewrite E, Hv, app_nil_r. done.
  - exfalso. assert (last (strip s) = Some nl) as Hl.
    { rewrite E, Hv. apply last_snoc. }
    apply strip_last in Hl. by rewrite nl_is_space in Hl.
Qed.

Lemma section_pattern_groups : groups_ok heading_caps section_pattern.
Proof.
  simpl. split_and!; try done.
  - intros p u v. apply lang_dot_group.
  - intros p u v H. by apply lang_plus_class in H.
Qed.

Lemma re_match_section_caps s m :
  re_match section_pattern s = Some m → caps_ok heading_caps (caps m).
Proof.
  unfold re_match. intros H%head_Some_elem_of.
  eapply run_caps; [apply section_pattern_groups | apply H |].
  intros i u. simpl. by rewrite lookup_empty.
Qed.

Lemma run_cat_inv r1 r2 fuel st m :
  m ∈ run (Cat r1 r2) fuel st → ∃ y, y ∈ run r1 fuel st ∧ m ∈ run r2 fuel y.
Proof. simpl. rewrite list_elem_of_bind. intros (y & H2 & H1). eauto. Qed.

Lemma run_group_eol i r fuel st m :
  m ∈ run (Cat (Group i r) Eol) fuel st → is_Some (caps m !! i).
Proof.
  intros (y & Hy & Hm)%run_cat_inv. simpl in Hy, Hm.
  destruct (at_eol y); [|by apply elem_of_nil in Hm].
  apply list_elem_of_singleton in Hm as ->.
  apply list_elem_of_fmap in Hy as (z & -> & Hz). simpl.
  rewrite lookup_insert_eq. eauto.
Qed.

(** On a match the second group always took part. *)
Lemma re_match_section_group2 s m :
  re_match section_pattern s = Some m → is_Some (caps m !! 2).
Proof.
  unfold re_match, section_pattern. intros H%head_Some_elem_of.
  apply run_cat_inv in H as (y1 & Hy1 & H).
  apply run_cat_inv in H as (y2 & Hy2 & H).
  apply run_cat_inv in H as (y3 & Hy3 & H).
  apply run_cat_inv in H as (y4 & Hy4 & H).
  by eapply run_group_eol.
Qed.

(** ** The greedy path of the matcher *)

Lemma head_bind_first {A B : Type} (l : list A) (f : A → list B) x y :
  head l = Some x → head (f x) = Some y → head (l ≫= f) = Some y.
Proof.
  destruct l as [|a l]; [done|]. intros [= ->] Hy.
  simpl. rewrite head_app. by rewrite Hy.
Qed.

Lemma step_class_stops f p t c0 :
  stops f t → step_class f (MState p t c0) = [].
Proof. unfold step_class. destruct t as [|c t]; simpl; [done|]. by intros ->. Qed.

Lemma star_class_greedy f body k u t p c0 :
  (∀ st, body st = step_class f st) →
  Forall (λ c, f c = true) u → stops f t → (length u ≤ k)%nat →
  head (star_iter body k (MState p (u ++ t) c0))
  = Some (MState (p + length u) t c0).
Proof.
  intros Hbody Hu Ht. revert p k.
  induction Hu as [|c u Hc Hu IH]; intros p k Hk; simpl.
  - rewrite Nat.add_0_r. destruct k as [|k]; simpl; [done|].
    by rewrite Hbody, step_class_stops.
  - destruct k as [|k]; simpl in *; [lia|].
    rewrite Hbody. unfold step_class. simpl. rewrite Hc. simpl.
    rewrite app_nil_r, head_app, IH by lia.
    f_equal. f_equal. lia.
Qed.

Lemma step_class_cons f p c t c0 :
  f c = true → step_class f (MState p (c :: t) c0) = [MState (S p) t c0].
Proof. unfold step_class. simpl. by intros ->. Qed.

Lemma run_cat r1 r2 fuel st :
  run (Cat r1 r2) fuel st = run r1 fuel st ≫= run r2 fuel.
Proof. reflexivity. Qed.

Lemma run_star r fuel st :
  run (Star r) fuel st = star_iter (run r fuel) fuel st.
Proof. reflexivity. Qed.

Lemma run_class f fuel st : run (Class f) fuel st = step_class f st.
Proof. reflexivity. Qed.

Lemma run_group i r fuel st :
  run (Group i r) fuel st = capture i st <$> run r fuel st.
Proof. reflexivity. Qed.

Lemma bind_singleton {A B : Type} (x : A) (f : A → list B) : [x] ≫= f = f x.
Proof. simpl. apply app_nil_r. Qed.

Lemma plus_class_greedy f fuel u t p c0 :
  u ≠ [] → Forall (λ c, f c = true) u → stops f t → (length u ≤ fuel)%nat →
  head (run (Plus (Class f)) fuel (MState p (u ++ t) c0))
  = Some (MState (p + length u) t c0).
Proof.
  intros Hne Hu Ht Hk. destruct Hu as [|c u Hc Hu]; [done|].
  unfold Plus. rewrite run_cat, run_class.
  rewrite <- app_comm_cons, step_class_cons, bind_singleton, run_star by done.
  rewrite (star_class_greedy f) by (simpl in *; first [done | lia]).
  f_equal. f_equal. simpl. lia.
Qed.

Lemma dot_group_greedy fuel g t p c0 :
  dot_group g → stops is_digit t → (length g ≤ fuel)%nat →
  head (run (Group 1 (Cat (Class is_dot) (Plus (Class is_digit)))) fuel
          (MState p (g ++ t) c0))
  = Some (MState (p + length g) t (<[ 1 := g ]> c0)).
Proof.
  intros (d & -> & Hne & Hd) Ht Hk.
  rewrite run_group, run_cat, run_class.
  rewrite <- app_comm_cons, step_class_cons, bind_singleton by done.
  assert (head (run (Plus (Class is_digit)) fuel (MState (S p) (d ++ t) c0))
          = Some (MState (S p + length d) t c0)) as Hrun.
  { apply plus_class_greedy; simpl in *; first [done | lia]. }
  destruct (run (Plus (Class is_digit)) fuel (MState (S p) (d ++ t) c0))
    as [|y ys]; [done|].
  injection Hrun as ->.
  cbn [fmap list_fmap head]. unfold capture. cbn [pos rest caps].
  replace (S (p + length d) - p) with (length ("."%char :: d)) by (simpl; lia).
  rewrite (app_comm_cons d t), (take_app_length ("."%char :: d) t).
  f_equal. f_equal. simpl. lia.
Qed.

Lemma concat_stops_digit (gs : list (list ascii)) t :
  Forall dot_group gs → stops is_digit t → stops is_digit (concat gs ++ t).
Proof.
  intros [|g gs' (d & -> & _) _] Ht; simpl; [done|].
  by apply dot_not_digit.
Qed.

Lemma length_concat_ge (gs : list (list ascii)) :
  Forall dot_group gs → (length gs ≤ length (concat gs))%nat.
Proof.
  induction 1 as [|g gs (d & -> & _) _ IH]; simpl; [lia|].
  rewrite length_app. lia.
Qed.

Lemma dot_groups_greedy fuel k gs t p c0 :
  Forall dot_group gs → stops is_digit t → stops is_dot t →
  (length gs ≤ k)%nat → (length (concat gs) ≤ fuel)%nat →
  head (star_iter (run (Group 1 (Cat (Class is_dot) (Plus (Class is_digit)))) fuel)
          k (MState p (concat gs ++ t) c0))
  = Some (MState (p + length (concat gs)) t (caps_after gs c0)).
Proof.
  intros Hgs Htd Ht. revert p k c0.
  induction Hgs as [|g gs Hg Hgs IH]; intros p k c0 Hk Hf.
  - simpl. rewrite Nat.add_0_r. destruct k as [|k]; simpl; [done|].
    rewrite step_class_stops by done. done.
  - destruct k as [|k]; [simpl in Hk; lia|].
    simpl in Hf. rewrite length_app in Hf.
    cbn [star_iter concat]. rewrite <- (assoc_L (++)).
    rewrite head_app.
    erewrite head_bind_first; [reflexivity | |].
    + apply dot_group_greedy; [done | by apply concat_stops_digit | lia].
    + rewrite IH by (simpl in Hk; lia).
      simpl. rewrite length_app. f_equal. f_equal. lia.
Qed.

Lemma caps_after_lookup gs c0 :
  caps_after gs c0 !! 1 = match last gs with Some g => Some g | None => c0 !! 1 end.
Proof.
  revert c0. induction gs as [|g gs IH]; intros c0; [done|].
  unfold caps_after in *. simpl. rewrite IH.
  destruct gs as [|g' gs]; simpl; [by rewrite lookup_insert_eq | ].
  destruct (last (g' :: gs)) eqn:E; [done|]. by apply last_None in E.
Qed.

Lemma caps_after_other gs c0 i : i ≠ 1 → caps_after gs c0 !! i = c0 !! i.
Proof.
  intros Hi. revert c0. induction gs as [|g gs IH]; intros c0; [done|].
  unfold caps_after in *. simpl. rewrite IH. by rewrite lookup_insert_ne.
Qed.

Lemma group_plus_greedy i f fuel u t p c0 :
  u ≠ [] → Forall (λ c, f c = true) u → stops f t → (length u ≤ fuel)%nat →
  head (run (Group i (Plus (Class f))) fuel (MState p (u ++ t) c0))
  = Some (MState (p + length u) t (<[ i := u ]> c0)).
Proof.
  intros Hne Hu Ht Hk. rewrite run_group.
  pose proof (plus_class_greedy f fuel u t p c0 Hne Hu Ht Hk) as Hrun.
  destruct (run (Plus (Class f)) fuel (MState p (u ++ t) c0)) as [|y ys]; [done|].
  injection Hrun as ->.
  cbn [fmap list_fmap head]. unfold capture. cbn [pos rest caps].
  replace (p + length u - p) with (length u) by lia.
  by rewrite take_app_length.
Qed.

Lemma blanks_stops w r :
  blanks w → stops is_digit (w ++ r) ∧ stops is_dot (w ++ r).
Proof.
  intros [Hne Hw]. destruct Hw as [|c w Hc Hw]; [done|]. simpl.
  split; [by apply space_not_digit | by apply space_not_dot].
Qed.

(** The match of a dotted heading: group 1 holds the last dotted group,
    group 2 the rest of the line. *)
Lemma re_match_section_complete d gs w r :
  digits d → Forall dot_group gs → blanks w → one_line r → stops is_space r →
  re_match section_pattern (d ++ concat gs ++ w ++ r)
  = Some (MState (length (d ++ concat gs ++ w ++ r)) []
                 (<[ 2 := r ]> (caps_after gs ∅))).
Proof.
  intros [Hd1 Hd2] Hgs Hw [Hr1 Hr2] Hr3.
  destruct (blanks_stops w r Hw) as [Hs1 Hs2]. destruct Hw as [Hw1 Hw2].
  unfold re_match, section_pattern, start.
  set (s := d ++ concat gs ++ w ++ r).
  assert (length d + length (concat gs) + length w + length r = length s) as Hlen.
  { unfold s. rewrite !length_app. lia. }
  set (fuel := S (length s)).
  rewrite run_cat. change (run Bol fuel (MState 0 s ∅)) with [MState 0 s ∅].
  rewrite bind_singleton, run_cat.
  eapply head_bind_first.
  { apply plus_class_greedy; [done | done | | unfold fuel; lia].
    by apply concat_stops_digit. }
  rewrite run_cat. eapply head_bind_first.
  { rewrite run_star. apply dot_groups_greedy; try done; unfold fuel; try lia.
    pose proof (length_concat_ge gs Hgs). lia. }
  rewrite run_cat. eapply head_bind_first.
  { apply plus_class_greedy; [done | done | done | unfold fuel; lia]. }
  rewrite run_cat. eapply head_bind_first.
  { rewrite <- (app_nil_r r) at 1.
    apply group_plus_greedy; [done | done | done | unfold fuel; lia]. }
  simpl. do 3 f_equal. lia.
Qed.

(** ** [detect_section_subsection] *)

(** A text that is not a dotted heading once stripped gives no label and no
    remainder. *)
Lemma detect_no_heading text :
  ¬ dotted_heading (strip (list_ascii_of_string text)) →
  detect_section_subsection text = (None, None).
Proof.
  intros Hn. unfold detect_section_subsection.
  destruct (String.eqb text ""); [done|].
  destruct (re_match section_pattern _) as [m|] eqn:Hm; [|done].
  by apply re_match_strip_sound in Hm.
Qed.

(** A label, when there is one, is a dot followed by digits. *)
Lemma detect_label_dot_group text l b :
  detect_section_subsection text = (Some l, b) →
  ∃ g, dot_group g ∧ l = string_of_list_ascii g.
Proof.
  unfold detect_section_subsection.
  destruct (String.eqb text ""); [done|].
  destruct (re_match section_pattern _) as [m|] eqn:Hm; [|done].
  unfold group. intros [= H1 _].
  destruct (caps m !! 1) as [g|] eqn:Hg; [|done].
  injection H1 as <-. exists g. split; [|done].
  by apply (re_match_section_caps _ _ Hm 1 g).
Qed.

Lemma detect_label_nonempty text l b :
  detect_section_subsection text = (Some l, b) → l ≠ "".
Proof.
  intros (g & (d & -> & _) & ->)%detect_label_dot_group. done.
Qed.

(** The remainder is present exactly when the text matched. *)
Lemma detect_label_remainder text l b :
  detect_section_subsection text = (Some l, b) → is_Some b.
Proof.
  unfold detect_section_subsection.
  destruct (String.eqb text ""); [done|].
  destruct (re_match section_pattern _) as [m|] eqn:Hm; [|done].
  intros [= _ <-]. unfold group.
  destruct (re_match_section_group2 _ _ Hm) as [u ->]. simpl. eauto.
Qed.

(** On a dotted heading whose rest starts with a visible character, the
    label is the last dotted group (none when the number has one level)
    and the remainder is the rest. *)
Lemma detect_heading text d gs w r :
  strip (list_ascii_of_string text) = d ++ concat gs ++ w ++ r →
  digits d → Forall dot_group gs → blanks w → one_line r → stops is_space r →
  detect_section_subsection text
  = (string_of_list_ascii <$> last gs, Some (string_of_list_ascii r)).
Proof.
  intros Hs Hd Hgs Hw Hr Hr'. unfold detect_section_subsection.
  destruct (String.eqb text "") eqn:Ht.
  { apply String.eqb_eq in Ht as ->. destruct Hd as [Hd _].
    by destruct d. }
  rewrite Hs, re_match_section_complete by done.
  unfold group. simpl.
  rewrite lookup_insert_ne, caps_after_lookup, lookup_empty by done.
  rewrite lookup_insert_eq. simpl.
  by destruct (last gs).
Qed.

(** A dotted heading that does not end in white space splits so that the
    rest starts with a visible character. *)
Lemma dotted_heading_canonical s :
  dotted_heading s → (∀ c, last s = Some c → is_space c = false) →
  ∃ d gs w r,
    s = d ++ concat gs ++ w ++ r ∧
    digits d ∧ Forall dot_group gs ∧ blanks w ∧ one_line r ∧ stops is_space r.
Proof.
  intros (d & gs & w & r & -> & Hd & Hgs & [Hw1 Hw2] & [Hr1 Hr2]) Hlast.
  destruct (lstrip_suffix r) as (w' & Er & Hw').
  assert (Forall (λ c, not_newline c = true) (lstrip r)) as Hline.
  { rewrite Er in Hr2. by apply Forall_app in Hr2 as [_ ?]. }
  destruct (lstrip r) as [|c r'] eqn:El.
  - exfalso. rewrite app_nil_r in Er. subst w'.
    destruct (last r) as [c|] eqn:Ec; [|by apply last_None in Ec].
    specialize (Hlast c). rewrite !last_app, Ec in Hlast.
    specialize (Hlast eq_refl).
    apply last_Some_elem_of in Ec. rewrite Forall_forall in Hw'.
    specialize (Hw' c Ec). congruence.
  - exists d, gs, (w ++ w'), (c :: r'). split_and!; try done.
    + rewrite Er. by rewrite <- !(assoc_L (++)).
    + split; [by destruct w | by apply Forall_app].
    + simpl. apply (lstrip_head r). by rewrite El.
Qed.

(** The detector on every text: a stripped text that is not a dotted
    heading gives nothing; a dotted heading gives its last dotted group as
    label, no label when the number has a single level, and its rest as
    remainder. *)
Lemma detect_characterized text :
  let s := strip (list_ascii_of_string text) in
  (¬ dotted_heading s ∧ detect_section_subsection text = (None, None))
  ∨ (∃ d gs w r,
       s = d ++ concat gs ++ w ++ r ∧
       digits d ∧ Forall dot_group gs ∧ blanks w ∧ one_line r ∧ stops is_space r ∧
       detect_section_subsection text
       = (string_of_list_ascii <$> last gs, Some (string_of_list_ascii r))).
Proof.
  simpl. unfold detect_section_subsection at 1.
  destruct (String.eqb text "") eqn:Ht.
  { left. apply String.eqb_eq in Ht as ->. split; [|done].
    intros (d & gs & w & r & E & [Hd _] & _). by destruct d. }
  destruct (re_match section_pattern _) as [m|] eqn:Hm.
  - right. apply re_match_strip_sound in Hm.
    destruct (dotted_heading_canonical _ Hm (strip_last _))
      as (d & gs & w & r & E & Hd & Hgs & Hw & Hr & Hr').
    exists d, gs, w, r. split_and!; try done.
    by apply (detect_heading text d gs w r).
  - left. split; [|done]. intros Hh.
    destruct (dotted_heading_canonical _ Hh (strip_last _))
      as (d & gs & w & r & E & Hd & Hgs & Hw & Hr & Hr').
    rewrite E in Hm.
    rewrite (re_match_section_complete d gs w r) in Hm by done. discriminate.
Qed.

Example detect_one_level :
  detect_section_subsection "1 Introduction" = (None, Some "Introduction").
Proof. by vm_compute. Qed.

Example detect_three_levels :
  detect_section_subsection "2.3.4   Deep  heading " = (Some ".4", Some "Deep  heading").
Proof. by vm_compute. Qed.

Example detect_dot_without_digits :
  detect_section_subsection "1. Introduction" = (None, None).
Proof. by vm_compute. Qed.

Example detect_plain_title :
  detect_section_subsection "Introduction" = (None, None).
Proof. by vm_compute. Qed.

(** On a dotted heading the label is never the numeric prefix: it starts
    with a dot, or there is none. *)
Lemma detect_never_full_prefix text d gs w r :
  strip (list_ascii_of_string text) = d ++ concat gs ++ w ++ r →
  digits d → Forall dot_group gs → blanks w → one_line r → stops is_space r →
  (detect_section_subsection text).1 ≠ Some (string_of_list_ascii (d ++ concat gs)).
Proof.
  intros Hs Hd Hgs Hw Hr Hr'.
  rewrite (detect_heading text d gs w r) by done. simpl.
  destruct (last gs) as [g|] eqn:Hg; [|done]. simpl. intros [= E].
  apply last_Some_elem_of in Hg. rewrite Forall_forall in Hgs.
  destruct (Hgs g Hg) as (d' & -> & _).
  destruct Hd as [Hne Hd]. destruct Hd as [|c d Hc Hd]; [done|].
  simpl in E. injection E as E _. subst c. done.
Qed.

(** ** The aggregation loop *)

Section Aggregation.

Variable read_csv : string → outcome.

Lemma process_element_pages st el :
  pages (process_element read_csv st el)
  = append_item (El.page_number (El.metadata el)) (content_item read_csv st el) (pages st).
Proof. unfold process_element. by destruct (update_headings st el). Qed.

Lemma process_element_headings st el :
  (current_section (process_element read_csv st el),
   current_subsection (process_element read_csv st el))
  = update_headings st el.
Proof. unfold process_element. by destruct (update_headings st el). Qed.

(** The loop appends the emitted items, in order. *)
Lemma fold_emitted els st :
  pages (fold_left (process_element read_csv) els st)
  = fold_left (λ pg x, append_item x.1 x.2 pg) (emitted read_csv st els) (pages st).
Proof.
  revert st. induction els as [|el els IH]; intros st; [done|].
  simpl. by rewrite IH, process_element_pages.
Qed.

Lemma emitted_pages els st :
  (emitted read_csv st els).*1 = (λ el, El.page_number (El.metadata el)) <$> els.
Proof.
  revert st. induction els as [|el els IH]; intros st; [done|].
  simpl. by rewrite IH.
Qed.

(** The items a page holds after a run of appends: those it had, then the
    appended ones for that page, in order. *)
Lemma append_all_lookup (l : list (Z * Item.t)) (pg : gmap Z (list Item.t)) p :
  let new := (filter (λ x, x.1 = p) l).*2 in
  fold_left (λ pg x, append_item x.1 x.2 pg) l pg !! p
  = match new with
    | [] => pg !! p
    | _ => Some (default [] (pg !! p) ++ new)
    end.
Proof.
  revert pg. induction l as [|[q it] l IH]; intros pg; simpl; [done|].
  rewrite IH. clear IH. unfold append_item. simpl.
  rewrite filter_cons. simpl. destruct (decide (q = p)) as [->|Hq].
  - rewrite fmap_cons, lookup_insert_eq. simpl.
    destruct ((filter (λ x, x.1 = p) l).*2) as [|y ys]; [done|].
    by rewrite <- (assoc_L (++)).
  - by rewrite lookup_insert_ne.
Qed.

Lemma aggregate_lookup els p :
  let new := (filter (λ x, x.1 = p) (emitted read_csv init_state els)).*2 in
  pages (aggregate read_csv els) !! p
  = match new with [] => None | _ => Some new end.
Proof.
  unfold aggregate. rewrite fold_emitted, append_all_lookup. simpl.
  by rewrite lookup_empty.
Qed.

Lemma update_headings_non_title st el :
  El.category el ≠ "Title" →
  update_headings st el = (current_section st, current_subsection st).
Proof.
  intros Hc%String.eqb_neq. unfold update_headings. rewrite Hc.
  by destruct (detect_section_subsection (text_of el)).
Qed.

(** The item carries the headings the loop holds after the update. *)
Lemma content_item_headings st el :
  (Item.section (content_item read_csv st el),
   Item.sub_section (content_item read_csv st el))
  = update_headings st el.
Proof.
  unfold content_item. destruct (update_headings st el) as [sec sub].
  unfold add_bbox, fill_item, new_item.
  destruct (El.coordinates _), (map_element_type _); simpl; try done;
    by destruct (truthy _).
Qed.

(** Over a run of elements none of which is a [Title], the headings stay
    what they were and every item carries them. *)
Lemma non_titles_keep_headings els st :
  Forall (λ el, El.category el ≠ "Title") els →
  let st' := fold_left (process_element read_csv) els st in
  current_section st' = current_section st
  ∧ current_subsection st' = current_subsection st
  ∧ Forall (λ x, Item.section x.2 = current_section st
                 ∧ Item.sub_section x.2 = current_subsection st)
           (emitted read_csv st els).
Proof.
  intros Hels. revert st. induction Hels as [|el els Hel Hels IH]; intros st.
  { simpl. by split_and!. }
  simpl. pose proof (process_element_headings st el) as H.
  pose proof (content_item_headings st el) as H'.
  rewrite update_headings_non_title in H, H' by done.
  injection H as H1 H2. injection H' as H3 H4.
  destruct (IH (process_element read_csv st el)) as (E1 & E2 & E3).
  rewrite H1 in E1. rewrite H2 in E2. split_and!; [done | done |].
  constructor; [done|]. eapply Forall_impl; [apply E3|].
  intros x. simpl. by rewrite H1, H2.
Qed.

End Aggregation.

(** ** The sorted page list *)

Global Instance page_le_trans : Transitive page_le.
Proof. intros x y z. unfold page_le. lia. Qed.

Global Instance page_le_total : Total page_le.
Proof. intros x y. unfold page_le. lia. Qed.

Lemma sorted_nodup_strict (l : list (Z * list Item.t)) :
  StronglySorted page_le l → NoDup l.*1 → StronglySorted Z.lt l.*1.
Proof.
  induction 1 as [|x l Hl IH Hx]; simpl; [constructor|].
  intros [Hnx Hnd]%NoDup_cons. constructor; [by apply IH|].
  apply Forall_fmap, Forall_forall. intros y Hy. simpl.
  rewrite Forall_forall in Hx. specialize (Hx y Hy). unfold page_le in Hx.
  assert (x.1 ≠ y.1); [|lia].
  intros E. apply Hnx. rewrite E. by apply list_elem_of_fmap_2.
Qed.

Lemma format_result_numbers (pg : gmap Z (list Item.t)) :
  page_number <$> format_result pg = (merge_sort page_le (map_to_list pg)).*1.
Proof.
  unfold format_result. rewrite <- list_fmap_compose. done.
Qed.

Lemma format_result_sorted (pg : gmap Z (list Item.t)) :
  StronglySorted Z.lt (page_number <$> format_result pg).
Proof.
  rewrite format_result_numbers. apply sorted_nodup_strict.
  - apply StronglySorted_merge_sort; apply _.
  - rewrite merge_sort_Permutation. apply NoDup_fst_map_to_list.
Qed.

Lemma format_result_elem (pg : gmap Z (list Item.t)) (x : Page) :
  x ∈ format_result pg ↔ pg !! page_number x = Some (content x).
Proof.
  unfold format_result. rewrite list_elem_of_fmap. split.
  - intros ([k v] & -> & H). simpl.
    rewrite merge_sort_Permutation in H. by apply elem_of_map_to_list.
  - intros H. exists (page_number x, content x). split; [by destruct x|].
    rewrite merge_sort_Permutation. by apply elem_of_map_to_list.
Qed.

Lemma format_result_number (pg : gmap Z (list Item.t)) p :
  p ∈ page_number <$> format_result pg ↔ is_Some (pg !! p).
Proof.
  rewrite list_elem_of_fmap. split.
  - intros (x & -> & H%format_result_elem). eauto.
  - intros [c Hc]. exists (mkPage p c). split; [done|].
    by apply format_result_elem.
Qed.

Lemma strict_sorted_nodup (l : list Z) : StronglySorted Z.lt l → NoDup l.
Proof.
  induction 1 as [|x l Hl IH Hx]; constructor; [|done].
  intros Hin. rewrite Forall_forall in Hx. specialize (Hx x Hin). lia.
Qed.

(** A heading that is not in dotted-number form, then a paragraph: one
    page, two paragraph items, both under the raw title. *)
Example two_element_stream :
  format_result (pages (aggregate pandas_read_csv
    [ Samples.element "Title" (Some "1. Introduction") 1 None;
      Samples.element "NarrativeText" (Some "Hello world.") 1 None ]))
  = [ mkPage 1
        [ Item.mk paragraph (Some "1. Introduction") None None
                  (Some "1. Introduction") None;
          Item.mk paragraph (Some "1. Introduction") None None
                  (Some "Hello world.") None ] ].
Proof. by vm_compute. Qed.

(** * The claims *)

(** C1.  On ["1.2 Overview"] the detector returns the remainder
    ["Overview"], but its label is [".2"], the last dotted group that the
    repeated capture keeps, and not the numeric prefix ["1.2"]. *)
Theorem detect_1_2_Overview :
  detect_section_subsection "1.2 Overview" = (Some ".2", Some "Overview")
  ∧ (detect_section_subsection "1.2 Overview").1 ≠ Some "1.2".
Proof. split; [by vm_compute | vm_compute; discriminate]. Qed.

(** C2, as stated, fails: the section of a [Title] whose text is not a
    dotted heading is the text as extracted, white space included, not the
    stripped text. *)
Lemma title_section_is_not_stripped :
  ¬ (∀ (st : agg_state) (el : El.t),
       El.category el = "Title" →
       current_section (process_element pandas_read_csv st el)
       = Some (match (detect_section_subsection (text_of el)).1 with
               | Some label => label
               | None => str_strip (text_of el)
               end)).
Proof.
  intros H. specialize (H init_state Samples.title_padded eq_refl).
  vm_compute in H. discriminate H.
Qed.

(** C2, amended.  A [Title] element sets [current_section] to the detected
    label when there is one and otherwise to its text as extracted (not
    stripped; the empty string when the text is missing), and sets
    [current_subsection] to the detected remainder, which is absent whenever
    the stripped text is not a dotted heading, whatever the subsection was
    before. *)
Theorem title_sets_headings (read_csv : string → outcome) (st : agg_state) (el : El.t) :
  El.category el = "Title" →
  let st' := process_element read_csv st el in
  let detected := detect_section_subsection (text_of el) in
  current_section st' = Some (match detected.1 with
                              | Some label => label
                              | None => text_of el
                              end)
  ∧ current_subsection st' = detected.2
  ∧ (¬ dotted_heading (strip (list_ascii_of_string (text_of el))) →
     current_subsection st' = None).
Proof.
  intros Hc. simpl.
  pose proof (process_element_headings read_csv st el) as H.
  unfold update_headings in H. rewrite Hc in H. simpl in H.
  destruct (detect_section_subsection (text_of el)) as [sec sub] eqn:Hd.
  injection H as -> ->. simpl. split_and!.
  - destruct sec as [l|]; simpl; [|done].
    apply detect_label_nonempty in Hd.
    destruct (String.eqb l "") eqn:E; [|done].
    by apply String.eqb_eq in E.
  - done.
  - intros Hn. apply detect_no_heading in Hn. congruence.
Qed.

Lemma title_sets_headings_witness :
  let st' := process_element pandas_read_csv init_state Samples.title_1_2 in
  let detected := detect_section_subsection (text_of Samples.title_1_2) in
  current_section st' = Some (match detected.1 with
                              | Some label => label
                              | None => text_of Samples.title_1_2
                              end)
  ∧ current_subsection st' = detected.2
  ∧ (¬ dotted_heading (strip (list_ascii_of_string (text_of Samples.title_1_2))) →
     current_subsection st' = None).
Proof.
  apply (title_sets_headings pandas_read_csv init_state Samples.title_1_2).
  reflexivity.
Defined.

(** C3.  The carried headings start absent, and an element whose category
    is not [Title] leaves both unchanged; the item it produces carries them
    and is the one appended to its page. *)
Theorem non_title_keeps_headings (read_csv : string → outcome) (st : agg_state) (el : El.t) :
  El.category el ≠ "Title" →
  let st' := process_element read_csv st el in
  let it := content_item read_csv st el in
  let page_num := El.page_number (El.metadata el) in
  (current_section init_state = None ∧ current_subsection init_state = None)
  ∧ (current_section st' = current_section st
     ∧ current_subsection st' = current_subsection st)
  ∧ (Item.section it = current_section st
     ∧ Item.sub_section it = current_subsection st)
  ∧ pages st' !! page_num = Some (default [] (pages st !! page_num) ++ [it]).
Proof.
  intros Hc. simpl.
  pose proof (process_element_headings read_csv st el) as H.
  pose proof (content_item_headings read_csv st el) as H'.
  rewrite update_headings_non_title in H, H' by done.
  injection H as H1 H2. injection H' as H3 H4.
  split_and!; try done.
  rewrite process_element_pages. unfold append_item.
  by rewrite lookup_insert_eq.
Qed.

Lemma non_title_keeps_headings_witness :
  let st := process_element pandas_read_csv init_state Samples.title_1_2 in
  let st' := process_element pandas_read_csv st Samples.narrative in
  let it := content_item pandas_read_csv st Samples.narrative in
  (current_section init_state = None ∧ current_subsection init_state = None)
  ∧ (current_section st' = current_section st
     ∧ current_subsection st' = current_subsection st)
  ∧ (Item.section it = current_section st
     ∧ Item.sub_section it = current_subsection st)
  ∧ pages st' !! 1%Z = Some (default [] (pages st !! 1%Z) ++ [it]).
Proof.
  apply (non_title_keeps_headings pandas_read_csv
           (process_element pandas_read_csv init_state Samples.title_1_2)
           Samples.narrative).
  discriminate.
Defined.

(** C4.  The page numbers of the output are strictly ascending (so each
    occurs once), they are exactly the page numbers of the input elements
    (a page without element does not occur), and the content of a page is
    the items of its elements in the order of the stream. *)
Theorem pages_sorted_complete_in_order (read_csv : string → outcome) (elements : list El.t) :
  let out := format_result (pages (aggregate read_csv elements)) in
  StronglySorted Z.lt (page_number <$> out)
  ∧ NoDup (page_number <$> out)
  ∧ (∀ p, p ∈ page_number <$> out
          ↔ p ∈ (λ el, El.page_number (El.metadata el)) <$> elements)
  ∧ (∀ pg, pg ∈ out →
       content pg ≠ [] ∧
       content pg
       = (filter (λ x, x.1 = page_number pg)
                 (emitted read_csv init_state elements)).*2).
Proof.
  simpl. split_and!.
  - apply format_result_sorted.
  - apply strict_sorted_nodup, format_result_sorted.
  - intros p. rewrite format_result_number, aggregate_lookup.
    rewrite <- (emitted_pages read_csv elements init_state).
    set (l := emitted read_csv init_state elements). split.
    + intros [c Hc]. destruct ((filter (λ x, x.1 = p) l).*2) as [|y ys] eqn:E; [done|].
      assert (y ∈ (filter (λ x, x.1 = p) l).*2) as Hy by (rewrite E; left).
      apply list_elem_of_fmap in Hy as ([q z] & -> & Hz).
      apply list_elem_of_filter in Hz as [Hq Hz]. simpl in Hq. subst q.
      by apply (list_elem_of_fmap_2 fst) in Hz.
    + intros ([q z] & -> & Hz)%list_elem_of_fmap. simpl.
      assert (z ∈ (filter (λ x, x.1 = q) l).*2) as Hin.
      { apply (list_elem_of_fmap_2' snd _ (q, z)); [|done].
        by apply list_elem_of_filter. }
      destruct ((filter (λ x, x.1 = q) l).*2); [by apply elem_of_nil in Hin | eauto].
  - intros pg Hpg%format_result_elem. rewrite aggregate_lookup in Hpg.
    destruct ((filter _ _).*2) as [|y ys]; [done|].
    by injection Hpg as <-.
Qed.

Lemma split_on_absent sep s : sep ∉ s → split_on sep s = [s].
Proof.
  induction s as [|c s IH]; [done|]. intros Hn. simpl.
  destruct (Ascii.eqb c sep) eqn:E.
  - apply Ascii.eqb_eq in E as ->. exfalso. apply Hn. left.
  - rewrite IH; [done|]. intros Hs. apply Hn. by right.
Qed.

(** The reader raises on every text of at most one line, with or without
    pipes: after the first row is skipped no row is left to name the
    columns. *)
Lemma pandas_one_line_raises text :
  nl ∉ list_ascii_of_string text → ∃ msg, pandas_read_csv text = Raised msg.
Proof.
  intros Hn. unfold pandas_read_csv, lines.
  destruct (list_ascii_of_string text) as [|c s] eqn:E; [simpl; eauto|].
  rewrite split_on_absent by done. simpl. eauto.
Qed.

Lemma elem_of_select {A : Type} (mask : list bool) (l : list A) x :
  x ∈ select mask l → x ∈ l.
Proof.
  revert l. induction mask as [|b mask IH]; intros [|y l]; simpl;
    try (by intros ?%elem_of_nil).
  destruct b.
  - intros [->|H]%elem_of_cons; [left | right; by apply IH].
  - intros H. right. by apply IH.
Qed.

(** The value [applymap] puts in a cell is its own stripped form. *)
Lemma stripped_cell_fixed (x : cell) :
  str_strip (if notnull x then str_strip (str_cell x) else "")
  = if notnull x then str_strip (str_cell x) else "".
Proof. destruct (notnull x); [apply str_strip_idem | done]. Qed.

(** C5.  The two-column table with a header row, a dash row and one data
    row parses to the single row [1, 2]: the header row is skipped, the dash
    row only names the columns and the data row is kept.  White space is
    trimmed from every cell: a table whose cells are padded with blanks
    gives the cells without the padding, and whatever the reader returns,
    every cell of a grid is its own stripped form. *)
Theorem parse_two_col_table :
  parse_markdown_table pandas_read_csv Samples.two_col_table = Some [["1"; "2"]]
  ∧ parse_markdown_table pandas_read_csv Samples.padded_table = Some [["x"; "y z"]]
  ∧ ∀ (read_csv : string → outcome) (text : string)
      (grid : list (list string)) (row : list string) (c : string),
      parse_markdown_table read_csv text = Some grid →
      row ∈ grid → c ∈ row → str_strip c = c.
Proof.
  split_and!; [by vm_compute | by vm_compute |].
  intros read_csv text grid row c. unfold parse_markdown_table.
  destruct (read_csv text) as [df|]; [|done].
  intros [= <-] Hrow Hc. unfold tolist, loc_columns, applymap in Hrow.
  simpl in Hrow. apply list_elem_of_fmap in Hrow as (cells & -> & Hcells).
  apply elem_of_select in Hc.
  apply list_elem_of_fmap in Hcells as (row0 & -> & _).
  apply list_elem_of_fmap in Hc as (x & -> & _).
  by apply stripped_cell_fixed.
Qed.

(** C6, as stated, fails: a text without any pipe is not always a failure;
    three lines without pipe parse to a table of one column. *)
Lemma no_pipe_can_parse :
  ¬ (∀ text : string,
       text = "" ∨ "|"%char ∉ list_ascii_of_string text →
       parse_markdown_table pandas_read_csv text = None).
Proof.
  intros H. specialize (H Samples.three_lines).
  assert (parse_markdown_table pandas_read_csv Samples.three_lines = Some [["c"]])
    as E by (by vm_compute).
  rewrite H in E; [discriminate|].
  right. apply (bool_decide_unpack _). by vm_compute.
Qed.

(** C6, amended.  Whenever the reader raises on a text, the parser returns
    [None] instead of raising; a table element with such a text still gives
    an item, of type table and without table data, which is appended to its
    page.  The reader raises on the empty string and on every text of at
    most one line, with or without pipes.  A text without pipes on several
    lines need not be a failure: three lines without pipe parse to the one
    row made of the third. *)
Theorem parse_failure_gives_None :
  (∀ (read_csv : string → outcome) (text msg : string),
     read_csv text = Raised msg →
     parse_markdown_table read_csv text = None
     ∧ ∀ (st : agg_state) (el : El.t),
         text_of el = text → map_element_type (El.category el) = table →
         let it := content_item read_csv st el in
         let page_num := El.page_number (El.metadata el) in
         Item.type it = table ∧ Item.table_data it = None
         ∧ pages (process_element read_csv st el) !! page_num
           = Some (default [] (pages st !! page_num) ++ [it]))
  ∧ (∃ msg, pandas_read_csv "" = Raised msg)
  ∧ (∀ text : string,
       nl ∉ list_ascii_of_string text →
       (∃ msg, pandas_read_csv text = Raised msg)
       ∧ parse_markdown_table pandas_read_csv text = None)
  ∧ parse_markdown_table pandas_read_csv Samples.three_lines = Some [["c"]].
Proof.
  split_and!.
  - intros read_csv text msg Hr.
    assert (parse_markdown_table read_csv text = None) as Hp.
    { unfold parse_markdown_table. by rewrite Hr. }
    split; [done|]. intros st el Ht Hk. simpl. split_and!.
    + unfold content_item. destruct (update_headings st el) as [sec sub].
      rewrite Hk. unfold add_bbox. by destruct (El.coordinates _).
    + unfold content_item. destruct (update_headings st el) as [sec sub].
      rewrite Hk. unfold add_bbox, fill_item. simpl. rewrite Ht, Hp.
      by destruct (El.coordinates _).
    + rewrite process_element_pages. unfold append_item.
      by rewrite lookup_insert_eq.
  - by eexists.
  - intros text Hn. destruct (pandas_one_line_raises text Hn) as [msg Hm].
    split; [by exists msg|]. unfold parse_markdown_table. by rewrite Hm.
  - by vm_compute.
Qed.

Lemma parse_failure_gives_None_witness :
  parse_markdown_table pandas_read_csv "" = None
  ∧ ∀ (st : agg_state) (el : El.t),
      text_of el = "" → map_element_type (El.category el) = table →
      let it := content_item pandas_read_csv st el in
      let page_num := El.page_number (El.metadata el) in
      Item.type it = table ∧ Item.table_data it = None
      ∧ pages (process_element pandas_read_csv st el) !! page_num
        = Some (default [] (pages st !! page_num) ++ [it]).
Proof.
  apply (proj1 parse_failure_gives_None pandas_read_csv ""
           "EmptyDataError: No columns to parse from file").
  reflexivity.
Defined.

(** X19.  On the reader model, a text without line feed, with or without
    pipes, makes the parser return [None]. *)
Lemma parse_one_line_None text :
  nl ∉ list_ascii_of_string text →
  parse_markdown_table pandas_read_csv text = None.
Proof.
  intros [msg Hm]%pandas_one_line_raises.
  unfold parse_markdown_table. by rewrite Hm.
Qed.

(** X18.  Whatever the reader returns, every cell of the grid is its own
    stripped form. *)
Lemma parse_cells_stripped (read_csv : string → outcome) text grid row c :
  parse_markdown_table read_csv text = Some grid →
  row ∈ grid → c ∈ row → str_strip c = c.
Proof.
  unfold parse_markdown_table. destruct (read_csv text) as [df|]; [|done].
  intros [= <-]. unfold tolist, loc_columns, applymap. simpl.
  intros (row' & -> & Hrow')%list_elem_of_fmap Hc%elem_of_select.
  apply list_elem_of_fmap in Hrow' as (cells & -> & _).
  apply list_elem_of_fmap in Hc as (x & -> & _).
  destruct (notnull x); [apply str_strip_idem | done].
Qed.

(** Two lines without pipe: the second names the only column and no row
    is left, so the grid is empty, not absent. *)
Example parse_two_lines :
  parse_markdown_table pandas_read_csv (String "a" (String nl "b")) = Some [].
Proof. by vm_compute. Qed.

(** C7, as stated, fails: an image element gives an item with neither text
    nor table data, so it is not the case that exactly one of the two is
    populated on every item. *)
Lemma chart_item_has_neither :
  ¬ (∀ (st : agg_state) (el : El.t),
       let it := content_item pandas_read_csv st el in
       (is_Some (Item.text it) ∧ Item.table_data it = None)
       ∨ (Item.text it = None ∧ is_Some (Item.table_data it))).
Proof.
  intros H. specialize (H init_state Samples.image). vm_compute in H.
  destruct H as [[[x Hx] _] | [_ [x Hx]]]; discriminate.
Qed.

(** C7, amended.  At most one of text and table data is populated on an
    item: text is present exactly on paragraph items (so only when the type
    is not table), table data is present only on table items, where it is
    what the parser returned and so absent when parsing failed; chart items
    carry neither. *)
Theorem item_text_xor_table_data (read_csv : string → outcome) (st : agg_state) (el : El.t) :
  let it := content_item read_csv st el in
  ¬ (is_Some (Item.text it) ∧ is_Some (Item.table_data it))
  ∧ (is_Some (Item.text it) ↔ Item.type it = paragraph)
  ∧ (is_Some (Item.table_data it) → Item.type it = table)
  ∧ (Item.type it = table →
     Item.table_data it = parse_markdown_table read_csv (text_of el))
  ∧ (Item.type it = chart → Item.text it = None ∧ Item.table_data it = None).
Proof.
  simpl. unfold content_item. destruct (update_headings st el) as [sec sub].
  unfold add_bbox, fill_item, new_item.
  destruct (map_element_type (El.category el)) eqn:Hk; simpl;
    destruct (El.coordinates (El.metadata el)); simpl;
    try destruct (truthy _); simpl;
    split_and!; try done; try (by intros [[x Hx] [y Hy]]);
    try (by intros [x Hx]); try (split; eauto; by intros [x Hx]);
    try (split; [by intros [x Hx] | done]).
Qed.

(** C8.  The engine is called with the chosen strategy.  When that call
    succeeds it is the only one.  When it fails and the chosen strategy is
    not the fallback, the engine is called once more, with the fallback,
    and the outcome of that second call, elements or failure, is the
    outcome.  When it fails under the fallback strategy itself there is no
    second call and the failure is raised.  A failure of the extraction is
    a failure of [process_pdf]. *)
Theorem extract_retries_once
    (path_str : string → string) (is_file : string → bool)
    (fitz_page_count : string → result Z)
    (engine : list call → call → result (list El.t))
    (pdf_path strategy : string) (log : list call) :
  let first := mkCall (path_str pdf_path) strategy ["eng"] (Some true) in
  let second := mkCall (path_str pdf_path) FALLBACK_STRATEGY ["eng"] None in
  let run := extract_elements path_str engine pdf_path strategy log in
  (∀ els, engine log first = Ok els → run = (Ok els, log ++ [first]))
  ∧ (∀ e, engine log first = Raise e → strategy ≠ FALLBACK_STRATEGY →
       run = (engine (log ++ [first]) second, log ++ [first; second]))
  ∧ (∀ e, engine log first = Raise e → strategy = FALLBACK_STRATEGY →
       run = (Raise e, log ++ [first]))
  ∧ (∀ e log' n, run = (Raise e, log') →
       is_file pdf_path = true → fitz_page_count pdf_path = Ok n →
       process_pdf pandas_read_csv path_str is_file fitz_page_count engine
         pdf_path strategy log
       = (Raise e, log')).
Proof.
  simpl. unfold extract_elements, try_except, partition_pdf. split_and!.
  - by intros els ->.
  - intros e -> Hs. apply String.eqb_neq in Hs. rewrite Hs. simpl.
    by rewrite <- (assoc_L (++)).
  - intros e -> ->. done.
  - intros e log' n Hrun Hf Hn. unfold process_pdf. rewrite Hf, Hn. simpl.
    unfold bind, extract_elements, try_except, partition_pdf. by rewrite Hrun.
Qed.

Lemma extract_retries_once_witness :
  let first := mkCall "report.pdf" DEFAULT_STRATEGY ["eng"] (Some true) in
  let second := mkCall "report.pdf" FALLBACK_STRATEGY ["eng"] None in
  extract_elements id Samples.fast_only "report.pdf" DEFAULT_STRATEGY []
  = (Samples.fast_only [first] second, [first; second]).
Proof.
  exact (proj1 (proj2 (extract_retries_once
                  id (λ _, true) (λ _, Ok 1%Z) Samples.fast_only
                  "report.pdf" DEFAULT_STRATEGY []))
           (Exception "layout model unavailable") eq_refl
           ltac:(discriminate)).
Defined.

Lemma string_app_assoc (s1 s2 s3 : string) :
  (s1 +:+ s2) +:+ s3 = s1 +:+ s2 +:+ s3.
Proof. induction s1 as [|c s1 IH]; [done|]. exact (f_equal (String c) IH). Qed.

(** C9.  An element that carries coordinates gets the bbox annotation
    appended to the description its item has at that point, the empty
    string when it has none, whatever the type of the item: after a table
    caption, after a chart caption, after the section header marker, and
    alone. *)
Theorem bbox_always_appended (read_csv : string → outcome) (st : agg_state)
    (el : El.t) (c : El.CoordinatesMetadata) :
  El.coordinates (El.metadata el) = Some c →
  let it := content_item read_csv st el in
  let page_num := El.page_number (El.metadata el) in
  let before :=
    fill_item read_csv el
      (new_item (map_element_type (El.category el))
                (update_headings st el).1 (update_headings st el).2 (text_of el)) in
  let bbox := " (bbox=" +:+ El.points c +:+ ")" in
  Item.description it = Some (or_str (Item.description before) "" +:+ bbox)
  ∧ (Item.type it = table →
     Item.description it = Some ("Table on page " +:+ str_int page_num +:+ bbox))
  ∧ (Item.type it = chart →
     Item.description it
     = Some ("Chart/Image on page " +:+ str_int page_num
             +:+ " (category: " +:+ El.category el +:+ ")" +:+ bbox))
  ∧ (Item.type it = paragraph →
     Item.description it
     = Some (if truthy (detect_section_subsection (text_of el)).1
             then "Section header" +:+ bbox else bbox)).
Proof.
  intros Hc. simpl. unfold content_item.
  destruct (update_headings st el) as [sec sub]. simpl.
  unfold add_bbox. rewrite Hc.
  unfold fill_item, new_item.
  destruct (map_element_type (El.category el)); simpl.
  - destruct (truthy _); simpl; by split_and!.
  - split_and!; try done.
  - split_and!; try done. intros _. f_equal.
    by rewrite !string_app_assoc.
Qed.

Lemma bbox_always_appended_witness :
  Item.description (content_item pandas_read_csv init_state Samples.narrative)
  = Some " (bbox=((72.0, 90.5), (72.0, 102.5)))".
Proof.
  exact (proj1 (bbox_always_appended pandas_read_csv init_state Samples.narrative
                  (El.Build_CoordinatesMetadata "((72.0, 90.5), (72.0, 102.5))")
                  eq_refl)).
Defined.

(** C10.  The item of an element classified as paragraph has a text, the
    text of the element or the empty string when that is missing; an item
    without text is a table or a chart. *)
Theorem paragraph_text_never_null (read_csv : string → outcome) (st : agg_state) (el : El.t) :
  map_element_type (El.category el) = paragraph →
  let it := content_item read_csv st el in
  Item.text it = Some (default "" (El.text el))
  ∧ Item.text it ≠ None
  ∧ ∀ (st0 : agg_state) (el0 : El.t),
      Item.text (content_item read_csv st0 el0) = None →
      Item.type (content_item read_csv st0 el0) = table
      ∨ Item.type (content_item read_csv st0 el0) = chart.
Proof.
  intros Hk. simpl.
  assert (Item.text (content_item read_csv st el) = Some (default "" (El.text el))) as Ht.
  { unfold content_item. destruct (update_headings st el) as [sec sub].
    rewrite Hk. unfold add_bbox, fill_item, new_item, text_of. simpl.
    destruct (El.coordinates _), (truthy _), (El.text el); done. }
  split_and!; [done | by rewrite Ht |].
  intros st0 el0. unfold content_item.
  destruct (update_headings st0 el0) as [sec sub].
  unfold add_bbox, fill_item, new_item.
  destruct (map_element_type (El.category el0)), (El.coordinates _); simpl;
    try destruct (truthy _); simpl; intros H;
    first [discriminate H | by left | by right].
Qed.

Lemma paragraph_text_never_null_witness :
  Item.text (content_item pandas_read_csv init_state Samples.narrative)
  = Some "Hello world.".
Proof.
  exact (proj1 (paragraph_text_never_null pandas_read_csv init_state
                  Samples.narrative eq_refl)).
Defined.

(** * Further properties of the code *)

(** ** The heading detector *)

Lemma strip_blank s : Forall (λ c, is_space c = true) s → strip s = [].
Proof.
  intros Hs. unfold strip.
  assert (lstrip s = []) as ->; [|done].
  induction Hs as [|c s Hc Hs IH]; simpl; [done|]. by rewrite Hc.
Qed.

Lemma not_dotted_heading_nil : ¬ dotted_heading [].
Proof.
  intros (d & gs & w & r & E & [Hd _] & _). destruct d; [done|discriminate E].
Qed.

Lemma string_of_list_ascii_nil l : string_of_list_ascii l = "" → l = [].
Proof. by destruct l. Qed.

(** What a result other than [(None, None)] says about the text. *)
Lemma detect_match_inv text a b :
  detect_section_subsection text = (a, b) → (a, b) ≠ (None, None) →
  ∃ d gs w r,
    strip (list_ascii_of_string text) = d ++ concat gs ++ w ++ r ∧
    digits d ∧ Forall dot_group gs ∧ blanks w ∧ one_line r ∧ stops is_space r ∧
    a = string_of_list_ascii <$> last gs ∧ b = Some (string_of_list_ascii r).
Proof.
  intros Hd Hne.
  destruct (detect_characterized text) as [[_ Hn] | (d & gs & w & r & E & H1 & H2 & H3 & H4 & H5 & Hv)].
  - congruence.
  - exists d, gs, w, r. split_and!; try done; congruence.
Qed.

(** X1.  The detector does not see the white space around a text: a text
    and its stripped form give the same result. *)
Theorem detect_ignores_outer_space (text : string) :
  detect_section_subsection (str_strip text) = detect_section_subsection text.
Proof.
  unfold detect_section_subsection, str_strip.
  destruct (String.eqb text "") eqn:Ht.
  { apply String.eqb_eq in Ht as ->. done. }
  destruct (strip (list_ascii_of_string text)) as [|c s] eqn:Es.
  { done. }
  rewrite <- Es. clear Es.
  destruct (String.eqb (string_of_list_ascii _) "") eqn:E.
  - apply String.eqb_eq, string_of_list_ascii_nil in E. by rewrite E.
  - by rewrite list_ascii_of_string_of_list_ascii, strip_idem.
Qed.

(** X2.  The detector returns [(None, None)] exactly on the texts that,
    once stripped, are not a dotted heading. *)
Theorem detect_none_iff (text : string) :
  detect_section_subsection text = (None, None)
  ↔ ¬ dotted_heading (strip (list_ascii_of_string text)).
Proof.
  split.
  - intros Hd Hh.
    destruct (detect_characterized text)
      as [[Hn _] | (d & gs & w & r & E & H1 & H2 & H3 & H4 & H5 & Hv)]; [done|].
    rewrite Hv in Hd. discriminate Hd.
  - apply detect_no_heading.
Qed.

(** X3.  A text made of white space only, the empty text included, is never
    a heading. *)
Theorem detect_blank (text : string) :
  Forall (λ c, is_space c = true) (list_ascii_of_string text) →
  detect_section_subsection text = (None, None).
Proof.
  intros Hs. apply detect_no_heading. rewrite strip_blank by done.
  apply not_dotted_heading_nil.
Qed.

Lemma detect_blank_witness :
  detect_section_subsection "   " = (None, None).
Proof.
  apply (detect_blank "   "). repeat constructor.
Defined.

(** X4.  When the detector finds a heading, the remainder is present, is
    not empty, holds no line feed and is its own stripped form; the label,
    if there is one, is a dot followed by digits, and the stripped text ends
    with the remainder. *)
Theorem detect_result_shape (text : string) (a b : option string) :
  detect_section_subsection text = (a, b) → (a, b) ≠ (None, None) →
  ∃ r : string,
    b = Some r ∧ r ≠ "" ∧ (nl ∉ list_ascii_of_string r) ∧ str_strip r = r
    ∧ (∃ pre, strip (list_ascii_of_string text) = pre ++ list_ascii_of_string r)
    ∧ (∀ l, a = Some l →
         ∃ ds, l = String "." (string_of_list_ascii ds) ∧ digits ds).
Proof.
  intros Hd Hne.
  destruct (detect_match_inv _ _ _ Hd Hne)
    as (d & gs & w & r & E & H1 & H2 & H3 & [H4 H4'] & H5 & -> & ->).
  exists (string_of_list_ascii r).
  rewrite list_ascii_of_string_of_list_ascii. split_and!.
  - done.
  - intros ->%string_of_list_ascii_nil. done.
  - intros Hin. rewrite Forall_forall in H4'. specialize (H4' _ Hin).
    done.
  - unfold str_strip. rewrite list_ascii_of_string_of_list_ascii. f_equal.
    destruct r as [|c1 r']; [done|].
    destruct (last (c1 :: r')) as [c2|] eqn:El; [|by apply last_None in El].
    apply (strip_clean _ c1 c2); [done | done | done |].
    apply (strip_last (list_ascii_of_string text)).
    rewrite E, !last_app. by rewrite El.
  - exists (d ++ concat gs ++ w). by rewrite <- !(assoc_L (++)).
  - intros l Hl. destruct (last gs) as [g|] eqn:Hg; [|done].
    injection Hl as <-. apply last_Some_elem_of in Hg.
    rewrite Forall_forall in H2. destruct (H2 g Hg) as (ds & -> & Hds).
    by exists ds.
Qed.

Lemma detect_result_shape_witness :
  ∃ r : string,
    Some "Overview" = Some r ∧ r ≠ "" ∧ (nl ∉ list_ascii_of_string r) ∧ str_strip r = r
    ∧ (∃ pre, strip (list_ascii_of_string "1.2 Overview") = pre ++ list_ascii_of_string r)
    ∧ (∀ l, Some ".2" = Some l →
         ∃ ds, l = String "." (string_of_list_ascii ds) ∧ digits ds).
Proof.
  apply (detect_result_shape "1.2 Overview" (Some ".2") (Some "Overview")).
  - by vm_compute.
  - discriminate.
Defined.

(** ** The classifier and the fields of an item *)

Lemma map_element_type_table c : map_element_type c = table ↔ c = "Table".
Proof.
  unfold map_element_type. destruct (String.eqb c "Table") eqn:E.
  - apply String.eqb_eq in E. done.
  - apply String.eqb_neq in E. case_bool_decide; split; done.
Qed.

Lemma map_element_type_chart c :
  map_element_type c = chart ↔ c = "Image" ∨ c = "FigureCaption".
Proof.
  unfold map_element_type. destruct (String.eqb c "Table") eqn:E.
  - apply String.eqb_eq in E as ->. split; [done | by intros [|]].
  - case_bool_decide as H; rewrite !elem_of_cons, elem_of_nil in H;
      split; try done; tauto.
Qed.

Lemma content_item_type read_csv st el :
  Item.type (content_item read_csv st el) = map_element_type (El.category el).
Proof.
  unfold content_item. destruct (update_headings st el) as [sec sub].
  unfold add_bbox, fill_item, new_item.
  destruct (El.coordinates _), (map_element_type _); simpl; try done;
    by destruct (truthy _).
Qed.

(** X5.  The type of an item is decided by the category of its element
    alone, and no later step changes it: table exactly for [Table], chart
    exactly for [Image] and [FigureCaption], paragraph for every other
    category, [Title] included. *)
Theorem item_type_by_category (read_csv : string → outcome) (st : agg_state) (el : El.t) :
  let ty := Item.type (content_item read_csv st el) in
  (ty = table ↔ El.category el = "Table")
  ∧ (ty = chart ↔ El.category el = "Image" ∨ El.category el = "FigureCaption")
  ∧ (ty = paragraph ↔ El.category el ∉ ["Table"; "Image"; "FigureCaption"]).
Proof.
  simpl. rewrite content_item_type.
  pose proof (map_element_type_table (El.category el)) as Ht.
  pose proof (map_element_type_chart (El.category el)) as Hc.
  split_and!; [done | done |].
  assert (map_element_type (El.category el) = paragraph
          ↔ map_element_type (El.category el) ≠ table
            ∧ map_element_type (El.category el) ≠ chart) as ->.
  { destruct (map_element_type (El.category el)); split; try done;
      intros [? ?]; done. }
  rewrite Ht, Hc, !not_elem_of_cons. pose proof (not_elem_of_nil (El.category el)).
  tauto.
Qed.

Lemma map_element_type_title c : c = "Title" → map_element_type c = paragraph.
Proof. by intros ->. Qed.

(** ** Titles and the carried headings *)

Section Headings.

Variable read_csv : string → outcome.

Lemma update_headings_title st el :
  El.category el = "Title" →
  update_headings st el
  = (Some (match (detect_section_subsection (text_of el)).1 with
           | Some label => label
           | None => text_of el
           end),
     (detect_section_subsection (text_of el)).2).
Proof.
  intros Hc. unfold update_headings. rewrite Hc. simpl.
  destruct (detect_section_subsection (text_of el)) as [[l|] sub] eqn:Hd; [|done].
  simpl. apply detect_label_nonempty, String.eqb_neq in Hd. by rewrite Hd.
Qed.

Lemma emitted_app els1 els2 st :
  emitted read_csv st (els1 ++ els2)
  = emitted read_csv st els1
    ++ emitted read_csv (fold_left (process_element read_csv) els1 st) els2.
Proof.
  revert st. induction els1 as [|el els1 IH]; intros st; [done|].
  simpl. by rewrite IH.
Qed.

Lemma emitted_length els st : length (emitted read_csv st els) = length els.
Proof.
  revert st. induction els as [|el els IH]; intros st; [done|].
  simpl. by rewrite IH.
Qed.

End Headings.

(** X7.  A [Title] whose number has a single level (digits, white space,
    text) gives no label, so the section becomes the whole text as
    extracted while the subsection is the text after the number; and its
    item is not marked as a section header: with coordinates, its
    description is the bbox annotation alone. *)
Theorem title_one_level_number (read_csv : string → outcome) (st : agg_state)
    (el : El.t) (d w r : list ascii) :
  El.category el = "Title" →
  strip (list_ascii_of_string (text_of el)) = d ++ w ++ r →
  digits d → blanks w → one_line r → stops is_space r →
  let st' := process_element read_csv st el in
  current_section st' = Some (text_of el)
  ∧ current_subsection st' = Some (string_of_list_ascii r)
  ∧ (∀ c, El.coordinates (El.metadata el) = Some c →
       Item.description (content_item read_csv st el)
       = Some (" (bbox=" +:+ El.points c +:+ ")")).
Proof.
  intros Hc Hs Hd Hw Hr Hr'. simpl.
  assert (detect_section_subsection (text_of el)
          = (None, Some (string_of_list_ascii r))) as Hdet.
  { apply (detect_heading (text_of el) d [] w r); try done. }
  pose proof (process_element_headings read_csv st el) as H.
  rewrite update_headings_title, Hdet in H by done. simpl in H.
  injection H as -> ->. split_and!; [done | done |].
  intros c Hco. unfold content_item.
  destruct (update_headings st el) as [sec sub].
  unfold add_bbox, fill_item, new_item.
  rewrite Hco, (map_element_type_title _ Hc), Hdet. done.
Qed.

Lemma title_one_level_number_witness :
  let el := Samples.element "Title" (Some "1 Introduction") 4 (Some "((72.0, 90.5),)") in
  let st' := process_element pandas_read_csv init_state el in
  current_section st' = Some "1 Introduction"
  ∧ current_subsection st' = Some "Introduction"
  ∧ (∀ c, El.coordinates (El.metadata el) = Some c →
       Item.description (content_item pandas_read_csv init_state el)
       = Some (" (bbox=" +:+ El.points c +:+ ")")).
Proof.
  apply (title_one_level_number pandas_read_csv init_state
           (Samples.element "Title" (Some "1 Introduction") 4 (Some "((72.0, 90.5),)"))
           (list_ascii_of_string "1") (list_ascii_of_string " ")
           (list_ascii_of_string "Introduction")).
  - reflexivity.
  - by vm_compute.
  - split; [done | repeat constructor].
  - split; [done | repeat constructor].
  - split; [done | repeat constructor].
  - reflexivity.
Defined.

(** X8.  A [Title] without text (missing or empty) does not leave the
    section absent: it overwrites it with the empty string, and it clears
    the subsection. *)
Theorem title_without_text (read_csv : string → outcome) (st : agg_state) (el : El.t) :
  El.category el = "Title" →
  El.text el = None ∨ El.text el = Some "" →
  let st' := process_element read_csv st el in
  let it := content_item read_csv st el in
  current_section st' = Some "" ∧ current_subsection st' = None
  ∧ Item.section it = Some "" ∧ Item.sub_section it = None
  ∧ Item.text it = Some "".
Proof.
  intros Hc Ht. simpl.
  assert (text_of el = "") as Hx.
  { unfold text_of. by destruct Ht as [-> | ->]. }
  pose proof (process_element_headings read_csv st el) as H.
  pose proof (content_item_headings read_csv st el) as H'.
  rewrite update_headings_title, Hx in H, H' by done.
  injection H as -> ->. injection H' as -> ->. split_and!; try done.
  unfold content_item. destruct (update_headings st el) as [sec sub].
  rewrite (map_element_type_title _ Hc). unfold add_bbox, fill_item, new_item.
  rewrite Hx. simpl. by destruct (El.coordinates _).
Qed.

Lemma title_without_text_witness :
  let el := Samples.element "Title" None 2 None in
  let st := process_element pandas_read_csv init_state Samples.title_1_2 in
  let st' := process_element pandas_read_csv st el in
  let it := content_item pandas_read_csv st el in
  current_section st' = Some "" ∧ current_subsection st' = None
  ∧ Item.section it = Some "" ∧ Item.sub_section it = None
  ∧ Item.text it = Some "".
Proof.
  apply (title_without_text pandas_read_csv
           (process_element pandas_read_csv init_state Samples.title_1_2)
           (Samples.element "Title" None 2 None)).
  - reflexivity.
  - left. reflexivity.
Defined.

(** X9.  After a [Title], and until the next one, the headings are the ones
    that title set, on whatever page the following elements are: the title's
    own item and the item of every later element carry them, and they are
    the headings the loop ends with. *)
Theorem headings_of_last_title (read_csv : string → outcome)
    (before after : list El.t) (title : El.t) :
  El.category title = "Title" →
  Forall (λ el, El.category el ≠ "Title") after →
  let elements := before ++ title :: after in
  let sec := Some (match (detect_section_subsection (text_of title)).1 with
                   | Some label => label
                   | None => text_of title
                   end) in
  let sub := (detect_section_subsection (text_of title)).2 in
  let st := fold_left (process_element read_csv) elements init_state in
  current_section st = sec ∧ current_subsection st = sub
  ∧ Forall (λ x, Item.section x.2 = sec ∧ Item.sub_section x.2 = sub)
           (drop (length before) (emitted read_csv init_state elements)).
Proof.
  intros Hc Hafter. simpl.
  rewrite fold_left_app, emitted_app. simpl.
  set (st1 := fold_left (process_element read_csv) before init_state).
  rewrite drop_app_length'; [|by rewrite emitted_length].
  pose proof (process_element_headings read_csv st1 title) as H.
  pose proof (content_item_headings read_csv st1 title) as H'.
  rewrite update_headings_title in H, H' by done.
  injection H as H1 H2. injection H' as H3 H4.
  destruct (non_titles_keep_headings read_csv after
              (process_element read_csv st1 title) Hafter) as (E1 & E2 & E3).
  rewrite H1 in E1. rewrite H2 in E2. split_and!; [done | done |].
  constructor; [done|]. eapply Forall_impl; [apply E3|].
  intros x. simpl. by rewrite H1, H2.
Qed.

Lemma headings_of_last_title_witness :
  let elements := [Samples.title_padded; Samples.title_1_2; Samples.narrative; Samples.image] in
  let st := fold_left (process_element pandas_read_csv) elements init_state in
  current_section st = Some ".2" ∧ current_subsection st = Some "Overview"
  ∧ Forall (λ x, Item.section x.2 = Some ".2" ∧ Item.sub_section x.2 = Some "Overview")
           (drop 1 (emitted pandas_read_csv init_state elements)).
Proof.
  apply (headings_of_last_title pandas_read_csv
           [Samples.title_padded] [Samples.narrative; Samples.image]
           Samples.title_1_2).
  - reflexivity.
  - repeat constructor; discriminate.
Defined.

(** ** What the loop keeps *)

Section Keeping.

Variable read_csv : string → outcome.

(** All the items of a page map, page after page. *)
Lemma append_item_items p it (pg : gmap Z (list Item.t)) :
  mjoin (map_to_list (append_item p it pg)).*2 ≡ₚ it :: mjoin (map_to_list pg).*2.
Proof.
  unfold append_item. destruct (pg !! p) as [v|] eqn:Hp; simpl.
  - rewrite <- insert_delete_eq.
    rewrite map_to_list_insert by apply lookup_delete_eq.
    rewrite <- (map_to_list_delete pg p v Hp).
    rewrite !fmap_cons. cbn [mjoin list_join snd].
    rewrite <- (assoc_L (++)). symmetry. apply Permutation_middle.
  - by rewrite map_to_list_insert.
Qed.

Lemma append_all_items (l : list (Z * Item.t)) (pg : gmap Z (list Item.t)) :
  mjoin (map_to_list (fold_left (λ pg x, append_item x.1 x.2 pg) l pg)).*2
  ≡ₚ mjoin (map_to_list pg).*2 ++ l.*2.
Proof.
  revert pg. induction l as [|[q it] l IH]; intros pg; simpl.
  - by rewrite app_nil_r.
  - rewrite IH, append_item_items. simpl. by rewrite Permutation_middle.
Qed.

Lemma format_result_contents (pg : gmap Z (list Item.t)) :
  content <$> format_result pg ≡ₚ (map_to_list pg).*2.
Proof.
  unfold format_result. rewrite <- list_fmap_compose.
  by rewrite merge_sort_Permutation.
Qed.

End Keeping.

(** X10.  No element is lost and none is counted twice: the items of all
    the pages of the output are, as a collection, the items the loop built,
    one for each element, so the item total that [process_pdf] logs is the
    number of elements; the output has no page exactly when the stream is
    empty. *)
Theorem items_preserved (read_csv : string → outcome) (elements : list El.t) :
  let out := format_result (pages (aggregate read_csv elements)) in
  mjoin (content <$> out) ≡ₚ (emitted read_csv init_state elements).*2
  ∧ sum_list (length <$> (content <$> out)) = length elements
  ∧ (out = [] ↔ elements = []).
Proof.
  simpl.
  assert (mjoin (content <$> format_result (pages (aggregate read_csv elements)))
          ≡ₚ (emitted read_csv init_state elements).*2) as Hperm.
  { rewrite format_result_contents. unfold aggregate.
    rewrite fold_emitted, append_all_items. simpl.
    by rewrite map_to_list_empty. }
  assert (sum_list (length <$> (content <$> format_result (pages (aggregate read_csv elements))))
          = length elements) as Hsum.
  { rewrite <- length_join, Hperm, length_fmap. apply emitted_length. }
  split_and!; [done | done |]. split.
  - intros E. rewrite E in Hsum. simpl in Hsum. by destruct elements.
  - intros ->. unfold aggregate, format_result. simpl.
    by rewrite map_to_list_empty.
Qed.

(** X11.  The loop only ever appends: what a page holds after a first part
    of the stream is a prefix of what it holds after more elements, the new
    items being those of the later elements of that page, in order. *)
Theorem pages_only_grow (read_csv : string → outcome)
    (first more : list El.t) (p : Z) (c : list Item.t) :
  pages (aggregate read_csv first) !! p = Some c →
  pages (aggregate read_csv (first ++ more)) !! p
  = Some (c ++ (filter (λ x, x.1 = p)
                  (emitted read_csv (aggregate read_csv first) more)).*2).
Proof.
  intros Hc. unfold aggregate in *. rewrite fold_left_app.
  rewrite fold_emitted, append_all_lookup. simpl. rewrite Hc. simpl.
  destruct ((filter _ _).*2); [by rewrite app_nil_r | done].
Qed.

Lemma pages_only_grow_witness :
  pages (aggregate pandas_read_csv ([Samples.title_1_2] ++ [Samples.image; Samples.narrative])) !! 1%Z
  = Some ([content_item pandas_read_csv init_state Samples.title_1_2]
          ++ (filter (λ x, x.1 = 1%Z)
                (emitted pandas_read_csv (aggregate pandas_read_csv [Samples.title_1_2])
                   [Samples.image; Samples.narrative])).*2).
Proof.
  apply (pages_only_grow pandas_read_csv [Samples.title_1_2]
           [Samples.image; Samples.narrative] 1%Z).
  by vm_compute.
Defined.

(** ** [process_pdf] and the engine *)

(** X12.  [process_pdf] calls the engine at most twice, always for the same
    file: nothing, the chosen strategy alone, or the chosen strategy and
    then the fallback, the latter only when the chosen strategy is not the
    fallback.  When the file does not exist, or its page count cannot be
    read, the engine is not called at all and that failure is raised. *)
Theorem process_pdf_engine_calls
    (read_csv : string → outcome)
    (path_str : string → string) (is_file : string → bool)
    (fitz_page_count : string → result Z)
    (engine : list call → call → result (list El.t))
    (pdf_path strategy : string) (log : list call) :
  let first := mkCall (path_str pdf_path) strategy ["eng"] (Some true) in
  let second := mkCall (path_str pdf_path) FALLBACK_STRATEGY ["eng"] None in
  let out := process_pdf read_csv path_str is_file fitz_page_count engine
               pdf_path strategy log in
  (out.2 = log ∨ out.2 = log ++ [first]
   ∨ (out.2 = log ++ [first; second] ∧ strategy ≠ FALLBACK_STRATEGY
      ∧ ∃ e, engine log first = Raise e))
  ∧ (is_file pdf_path = false →
     out = (Raise (FileNotFoundError ("PDF file not found: " +:+ pdf_path)), log))
  ∧ (∀ e, is_file pdf_path = true → fitz_page_count pdf_path = Raise e →
     out = (Raise e, log)).
Proof.
  simpl. unfold process_pdf. destruct (is_file pdf_path); simpl.
  - destruct (fitz_page_count pdf_path) as [n|e0]; simpl.
    + split_and!; [|done|done].
      unfold bind, extract_elements, try_except, partition_pdf.
      destruct (engine log _) as [els|e] eqn:He; simpl; [auto|].
      destruct (String.eqb strategy FALLBACK_STRATEGY) eqn:Hs; simpl; [auto|].
      apply String.eqb_neq in Hs. right. right.
      rewrite <- (assoc_L (++)).
      destruct (engine (log ++ _) _); simpl; eauto.
    + split_and!; [auto | done |]. by intros e _ [= ->].
  - split_and!; [auto | done | done].
Qed.

Lemma process_pdf_engine_calls_witness :
  process_pdf pandas_read_csv id (λ _, false) (λ _, Ok 1%Z) Samples.fast_only
    "missing.pdf" DEFAULT_STRATEGY []
  = (Raise (FileNotFoundError ("PDF file not found: " +:+ "missing.pdf")), []).
Proof.
  exact (proj1 (proj2 (process_pdf_engine_calls pandas_read_csv id (λ _, false)
                         (λ _, Ok 1%Z) Samples.fast_only
                         "missing.pdf" DEFAULT_STRATEGY [])) eq_refl).
Defined.

(** X13.  When [process_pdf] returns pages, they are the pages of the
    elements that the last engine call returned, all of them and no others:
    after a fallback nothing of the failed first attempt is used. *)
Theorem process_pdf_uses_last_call
    (read_csv : string → outcome)
    (path_str : string → string) (is_file : string → bool)
    (fitz_page_count : string → result Z)
    (engine : list call → call → result (list El.t))
    (pdf_path chosen : string) (log log' : list call) (out : list Page) :
  process_pdf read_csv path_str is_file fitz_page_count engine
    pdf_path chosen log = (Ok out, log') →
  ∃ (before : list call) (c : call) (elements : list El.t),
    log' = before ++ [c] ∧ engine before c = Ok elements
    ∧ (strategy c = chosen ∨ strategy c = FALLBACK_STRATEGY)
    ∧ out = format_result (pages (aggregate read_csv elements)).
Proof.
  unfold process_pdf. destruct (is_file pdf_path); simpl; [|done].
  destruct (fitz_page_count pdf_path) as [n|e0]; simpl; [|done].
  unfold bind, extract_elements, try_except, partition_pdf.
  destruct (engine log _) as [els|e] eqn:He; simpl.
  - intros [= <- <-]. eexists log, _, els. split_and!; [done | done | auto | done].
  - destruct (String.eqb chosen FALLBACK_STRATEGY) eqn:Hs; simpl; [done|].
    destruct (engine (log ++ _) _) as [els|e'] eqn:He'; simpl; [|done].
    intros [= <- <-]. eexists (log ++ [_]), _, els.
    split_and!; [done | done | auto | done].
Qed.

Lemma process_pdf_uses_last_call_witness :
  ∃ (before : list call) (c : call) (elements : list El.t),
    [mkCall "report.pdf" DEFAULT_STRATEGY ["eng"] (Some true);
     mkCall "report.pdf" FALLBACK_STRATEGY ["eng"] None] = before ++ [c]
    ∧ Samples.fast_only before c = Ok elements
    ∧ (strategy c = DEFAULT_STRATEGY ∨ strategy c = FALLBACK_STRATEGY)
    ∧ format_result (pages (aggregate pandas_read_csv [Samples.title_1_2; Samples.narrative]))
      = format_result (pages (aggregate pandas_read_csv elements)).
Proof.
  apply (process_pdf_uses_last_call pandas_read_csv id (λ _, true) (λ _, Ok 1%Z)
           Samples.fast_only "report.pdf" DEFAULT_STRATEGY []).
  reflexivity.
Defined.

(** ** The table parser *)

Lemma length_select_kept {A : Type} (f : string → bool) (cols : list string) (row : list A) :
  length row = length cols →
  length (select (negb <$> (f <$> cols)) row)
  = length (filter (λ c, f c = false) cols).
Proof.
  revert row. induction cols as [|c cols IH]; intros [|x row] Hl; simpl in *;
    try done.
  rewrite filter_cons. case_decide as Hc; rewrite Hc || (apply not_false_is_true in Hc; rewrite Hc); simpl.
  - f_equal. apply IH. lia.
  - apply IH. lia.
Qed.

Lemma parse_grid_shape_aux (df : DataFrame cell) :
  (∀ row, row ∈ values df → length row = length (columns df)) →
  let grid :=
    tolist (loc_columns
              (negb <$> columns_contains_Unnamed
                 (applymap (λ x, if notnull x then str_strip (str_cell x) else "") df))
              (applymap (λ x, if notnull x then str_strip (str_cell x) else "") df)) in
  length grid = length (values df)
  ∧ ∀ row, row ∈ grid →
      length row
      = length (filter (λ c, String.prefix "Unnamed" c = false) (columns df)).
Proof.
  intros Hrect.
  unfold tolist, loc_columns, applymap, columns_contains_Unnamed. simpl.
  split; [by rewrite !length_fmap|].
  intros row (cells & -> & Hc)%list_elem_of_fmap.
  apply list_elem_of_fmap in Hc as (row0 & -> & Hrow0).
  apply length_select_kept. rewrite length_fmap. by apply Hrect.
Qed.

(** X14.  On a frame whose rows are as wide as its header, the parser
    returns one row for each row of the frame, and every row has one cell
    for each column whose label does not start with [Unnamed]: dropping
    those columns never drops a row and leaves the grid rectangular. *)
Theorem parse_grid_shape (read_csv : string → outcome) (text : string)
    (df : DataFrame cell) :
  read_csv text = Parsed df →
  (∀ row, row ∈ values df → length row = length (columns df)) →
  ∃ grid,
    parse_markdown_table read_csv text = Some grid
    ∧ length grid = length (values df)
    ∧ ∀ row, row ∈ grid →
        length row
        = length (filter (λ c, String.prefix "Unnamed" c = false) (columns df)).
Proof.
  intros Hr Hrect. unfold parse_markdown_table. rewrite Hr.
  eexists. split; [reflexivity|]. by apply parse_grid_shape_aux.
Qed.

Lemma parse_grid_shape_witness :
  ∃ grid,
    parse_markdown_table pandas_read_csv Samples.two_col_table = Some grid
    ∧ length grid = 1
    ∧ ∀ row, row ∈ grid →
        length row
        = length (filter (λ c, String.prefix "Unnamed" c = false) ["--"; "--.1"]).
Proof.
  apply (parse_grid_shape pandas_read_csv Samples.two_col_table
           (mkFrame ["--"; "--.1"] [[IntCell 1; IntCell 2]])).
  - by vm_compute.
  - intros row ->%list_elem_of_singleton. reflexivity.
Defined.

Lemma parse_cells_stripped_witness :
  str_strip "2" = "2".
Proof.
  apply (parse_cells_stripped pandas_read_csv Samples.two_col_table
           [["1"; "2"]] ["1"; "2"] "2").
  - by vm_compute.
  - left.
  - right. left.
Defined.

Lemma parse_one_line_None_witness :
  parse_markdown_table pandas_read_csv "| A | B |" = None.
Proof.
  apply (parse_one_line_None "| A | B |").
  apply (bool_decide_unpack _). by vm_compute.
Defined.

(** ** Texts the detector refuses *)

Lemma digit_prefix_unique (d d' : list ascii) x y a b :
  Forall (λ c, is_digit c = true) d → Forall (λ c, is_digit c = true) d' →
  is_digit x = false → is_digit y = false →
  d ++ x :: a = d' ++ y :: b → d = d' ∧ x = y ∧ a = b.
Proof.
  intros Hd. revert d'. induction Hd as [|c d Hc Hd IH]; intros d' Hd' Hx Hy E.
  - destruct Hd' as [|c' d' Hc' Hd']; simpl in E.
    + by injection E as -> ->.
    + injection E as -> _. congruence.
  - destruct Hd' as [|c' d' Hc' Hd']; simpl in E.
    + injection E as <- _. congruence.
    + injection E as -> E. destruct (IH d' Hd' Hx Hy E) as (-> & -> & ->). done.
Qed.

Lemma dotted_heading_head s :
  dotted_heading s → ∃ c t, s = c :: t ∧ is_digit c = true.
Proof.
  intros (d & gs & w & r & -> & [Hne Hd] & _).
  destruct Hd as [|c d Hc Hd]; [done|]. by exists c, (d ++ concat gs ++ w ++ r).
Qed.

Lemma dotted_heading_after_digits d x a :
  Forall (λ c, is_digit c = true) d → is_digit x = false →
  dotted_heading (d ++ x :: a) →
  is_space x = true
  ∨ (is_dot x = true ∧ ∃ c t, a = c :: t ∧ is_digit c = true).
Proof.
  intros Hd Hx (d' & gs & w & r & E & [_ Hd'] & Hgs & [Hw1 Hw2] & _).
  destruct Hgs as [|g gs (ds & -> & [Hds1 Hds2]) Hgs]; simpl in E.
  - destruct Hw2 as [|c w Hc Hw2]; [done|]. simpl in E.
    assert (d = d' ∧ x = c ∧ a = w ++ r) as (_ & -> & _).
    { apply digit_prefix_unique; try done. by apply space_not_digit. }
    by left.
  - assert (d = d' ∧ x = "."%char ∧ a = ds ++ concat gs ++ w ++ r) as (_ & -> & ->).
    { apply digit_prefix_unique; try done. by rewrite <- (assoc_L (++)) in E. }
    right. split; [done|]. destruct Hds2 as [|c ds Hc Hds2]; [done|].
    by exists c, (ds ++ concat gs ++ w ++ r).
Qed.

(** X16.  A text whose first visible character is not a digit is never a
    heading, and neither is a text whose number is followed by anything but
    white space or a dot and a digit: ["Section 1.2 Overview"],
    ["1. Introduction"] and ["1) Scope"] give no label and no remainder. *)
Theorem detect_refuses (text : string) (d : list ascii) (x : ascii) (a : list ascii) :
  strip (list_ascii_of_string text) = d ++ x :: a →
  Forall (λ c, is_digit c = true) d →
  is_digit x = false →
  d = [] ∨ (is_space x = false
            ∧ (is_dot x = true → ∀ c t, a = c :: t → is_digit c = false)) →
  detect_section_subsection text = (None, None).
Proof.
  intros Hs Hd Hx Hcase. apply detect_no_heading. rewrite Hs. intros Hh.
  destruct Hcase as [-> | [Hsp Hdot]].
  - apply dotted_heading_head in Hh as (c & t & [= <- _] & Hc). congruence.
  - apply dotted_heading_after_digits in Hh as [Hs' | (Hdx & c & t & -> & Hc)];
      try done; [congruence|].
    specialize (Hdot Hdx c t eq_refl). congruence.
Qed.

Lemma detect_refuses_witness :
  detect_section_subsection "1. Introduction" = (None, None).
Proof.
  apply (detect_refuses "1. Introduction" (list_ascii_of_string "1") "."%char
           (list_ascii_of_string " Introduction")).
  - by vm_compute.
  - repeat constructor.
  - reflexivity.
  - right. split; [reflexivity|]. intros _ c t [= <- _]. reflexivity.
Defined.

(** X17.  The coordinates of an element reach its item through the
    description only: two elements that both carry coordinates and differ
    in them alone give items with the same type, headings, text and table
    data. *)
Theorem coordinates_touch_description_only (read_csv : string → outcome)
    (st : agg_state) (el el' : El.t) (c c' : El.CoordinatesMetadata) :
  El.coordinates (El.metadata el) = Some c →
  El.coordinates (El.metadata el') = Some c' →
  El.category el = El.category el' → El.text el = El.text el' →
  El.page_number (El.metadata el) = El.page_number (El.metadata el') →
  Item.set_description None (content_item read_csv st el)
  = Item.set_description None (content_item read_csv st el').
Proof.
  intros Hco Hco' Hc Ht Hp. unfold content_item, update_headings, text_of.
  rewrite Hc, Ht.
  destruct (let '(section, subsection) := detect_section_subsection _ in _)
    as [sec sub].
  unfold add_bbox, fill_item, new_item, text_of. rewrite Ht, Hp, Hco, Hco'.
  destruct (map_element_type (El.category el')); simpl; try done;
    by destruct (truthy _).
Qed.

Lemma coordinates_touch_description_only_witness :
  Item.set_description None (content_item pandas_read_csv init_state Samples.narrative)
  = Item.set_description None
      (content_item pandas_read_csv init_state
         (Samples.element "NarrativeText" (Some "Hello world.") 1
            (Some "((10.0, 20.0), (10.0, 32.0))"))).
Proof.
  apply (coordinates_touch_description_only pandas_read_csv init_state
           Samples.narrative
           (Samples.element "NarrativeText" (Some "Hello world.") 1
              (Some "((10.0, 20.0), (10.0, 32.0))"))
           (El.Build_CoordinatesMetadata "((72.0, 90.5), (72.0, 102.5))")
           (El.Build_CoordinatesMetadata "((10.0, 20.0), (10.0, 32.0))"));
    reflexivity.
Defined.
